(** * Whisper-WebUI: parameter records and their Gradio forms

    A shallow embedding of [modules/whisper/data_classes.py]: the four
    pydantic parameter records (VAD, diarization, background-music
    separation, Whisper decoding), the bundle that aggregates them, and the
    classmethods that render each record as a list of Gradio components.

    Conventions of the embedding.
    - Python [int] is [Z]; Python [float] is IEEE binary64, i.e. Rocq's
      primitive [float], so [float("inf")] is [infinity] and every range check
      is the IEEE comparison the interpreter performs; [str] is [string]
      (UTF-8 bytes); [Optional[T]] is [option T].
    - A dynamically typed value (a widget's [value], an entry of a dictionary)
      is a [pyval].
    - [model_dump()] yields an insertion-ordered dictionary: an association
      list in field declaration order.  The [defaults] dictionary is only ever
      looked up by key: a [gmap string pyval].
    - Constructing a record validates the supplied keyword arguments and
      either returns the record or raises [ValidationError]: a sum type.
    - The form renderers run in a small monad that threads the dictionary
      object the caller passed as [defaults] and either returns a value or
      raises an exception.
    - The translation marker [_("...")] of gradio_i18n is the identity on the
      message id; a label is modelled by its message id.
    - The records are pydantic models whose fields are declared as
      [name: T = Field(default=...)].  The model metaclass takes such
      attributes off the class, so reading a field name on the class
      ([cls.threshold]) raises [AttributeError]; the declared defaults are
      kept apart, in the table each module calls [cls]. *)

From Stdlib Require Import ZArith Floats.
From stdpp Require Import base option list strings gmap.

#[local] Set Warnings "-inexact-float,-register-all".
#[local] Open Scope Z_scope.

(** ** Python values *)

Inductive WhisperImpl :=
  | WHISPER
  | FASTER_WHISPER
  | INSANELY_FAST_WHISPER.

(** The value carried by each member of the enumeration. *)
Definition WhisperImpl_value (w : WhisperImpl) : string :=
  match w with
  | WHISPER => "whisper"
  | FASTER_WHISPER => "faster-whisper"
  | INSANELY_FAST_WHISPER => "insanely_fast_whisper"
  end.

Inductive pyval :=
  | PyNone
  | PyBool (b : bool)
  | PyInt (z : Z)
  | PyFloat (f : float)
  | PyStr (s : string)
  | PyEnum (w : WhisperImpl)
  | PyDict (items : list (string * pyval)).

Definition py_option {A} (inj : A → pyval) (o : option A) : pyval :=
  from_option inj PyNone o.

(** Python truth value, as used by [not x] and [x or y]. *)
Definition truthy (v : pyval) : bool :=
  match v with
  | PyNone => false
  | PyBool b => b
  | PyInt z => negb (z =? 0)
  | PyFloat f => negb (PrimFloat.eqb f 0%float)
  | PyStr s => negb (String.eqb s EmptyString)
  | PyEnum _ => true
  | PyDict items => match items with [] => false | _ => true end
  end.

(** [a == b] where [a] is a member of [WhisperImpl].  [WhisperImpl] derives
    from plain [Enum], which keeps the default identity-based [__eq__]: a
    member is equal to itself and to nothing else, whatever its value. *)
Definition WhisperImpl_beq (a b : WhisperImpl) : bool :=
  match a, b with
  | WHISPER, WHISPER
  | FASTER_WHISPER, FASTER_WHISPER
  | INSANELY_FAST_WHISPER, INSANELY_FAST_WHISPER => true
  | _, _ => false
  end.

Definition enum_eq (a : WhisperImpl) (b : pyval) : bool :=
  match b with
  | PyEnum b => WhisperImpl_beq a b
  | _ => false
  end.

(** [a == b] where [a] is a [str]: equal only to a [str] with the same
    characters. *)
Definition str_eq (a : string) (b : pyval) : bool :=
  match b with
  | PyStr b => String.eqb a b
  | _ => false
  end.

(** The double-quote character, for the literals of the source that
    contain one. *)
Definition dquote : string := String (Ascii.ascii_of_nat 34) EmptyString.

(** ** Validation errors *)

(** One line of a pydantic [ValidationError]: the field and the kind of the
    constraint it broke. *)
Record ErrorDetails := { loc : string; type_ : string }.

Abbreviation ValidationError := (list ErrorDetails).

(** The bound keywords of [Field]. *)
Inductive constraint (A : Type) :=
  | ge (bound : A)
  | gt (bound : A)
  | le (bound : A)
  | lt (bound : A).
Arguments ge {A} bound.
Arguments gt {A} bound.
Arguments le {A} bound.
Arguments lt {A} bound.

Definition constraint_type {A} (c : constraint A) : string :=
  match c with
  | ge _ => "greater_than_equal"
  | gt _ => "greater_than"
  | le _ => "less_than_equal"
  | lt _ => "less_than"
  end.

Definition int_satisfies (v : Z) (c : constraint Z) : bool :=
  match c with
  | ge b => b <=? v
  | gt b => b <? v
  | le b => v <=? b
  | lt b => v <? b
  end.

Definition float_satisfies (v : float) (c : constraint float) : bool :=
  match c with
  | ge b => PrimFloat.leb b v
  | gt b => PrimFloat.ltb b v
  | le b => PrimFloat.leb v b
  | lt b => PrimFloat.ltb v b
  end.

(** The order in which the validator of a number tests the bounds of a
    field: [le], [lt], [ge], [gt], whatever the order of the keywords. *)
Definition constraint_rank {A} (c : constraint A) : nat :=
  match c with
  | le _ => 0
  | lt _ => 1
  | ge _ => 2
  | gt _ => 3
  end.

Definition test_order {A} (cs : list (constraint A)) : list (constraint A) :=
  filter (λ c, constraint_rank c = 0%nat) cs
  ++ filter (λ c, constraint_rank c = 1%nat) cs
  ++ filter (λ c, constraint_rank c = 2%nat) cs
  ++ filter (λ c, constraint_rank c = 3%nat) cs.

(** Validation of one field.  A field that was not supplied takes its
    default, which is not validated; a supplied value is tested against the
    field's constraints and reports the first one it breaks. *)
Definition validate {A} (satisfies : A → constraint A → bool)
    (name : string) (constraints : list (constraint A))
    (supplied : option A) : ValidationError :=
  match supplied with
  | None => []
  | Some v =>
      match filter (λ c, satisfies v c = false) (test_order constraints) with
      | [] => []
      | c :: _ => [ {| loc := name; type_ := constraint_type c |} ]
      end
  end.

(** The record is built only when no field reported an error. *)
Definition finish {A} (errors : ValidationError) (record : A)
    : ValidationError + A :=
  match errors with
  | [] => inr record
  | _ => inl errors
  end.

(** ** Gradio components *)

Inductive component := Checkbox | Slider | Number | Textbox | Dropdown.

Record widget := {
  kind : component;
  label : string;
  value : pyval;
  info : string;
  interactive : option bool;
  visible : bool;
  precision : option Z;
  minimum : option pyval;
  maximum : option pyval;
  step : option pyval;
  choices : option (list pyval)
}.

(** A component built from the three keywords every call passes, the other
    keywords at the defaults of their constructors. *)
Definition gr (k : component) (lbl : string) (v : pyval) (inf : string)
    : widget :=
  {| kind := k; label := lbl; value := v; info := inf;
     interactive := None; visible := true; precision := None;
     minimum := None; maximum := None; step := None; choices := None |}.

Definition with_interactive (b : bool) (w : widget) : widget :=
  {| kind := kind w; label := label w; value := value w; info := info w;
     interactive := Some b; visible := visible w; precision := precision w;
     minimum := minimum w; maximum := maximum w; step := step w;
     choices := choices w |}.

Definition with_visible (b : bool) (w : widget) : widget :=
  {| kind := kind w; label := label w; value := value w; info := info w;
     interactive := interactive w; visible := b; precision := precision w;
     minimum := minimum w; maximum := maximum w; step := step w;
     choices := choices w |}.

Definition with_precision (p : Z) (w : widget) : widget :=
  {| kind := kind w; label := label w; value := value w; info := info w;
     interactive := interactive w; visible := visible w; precision := Some p;
     minimum := minimum w; maximum := maximum w; step := step w;
     choices := choices w |}.

Definition with_range (lo hi st : pyval) (w : widget) : widget :=
  {| kind := kind w; label := label w; value := value w; info := info w;
     interactive := interactive w; visible := visible w;
     precision := precision w;
     minimum := Some lo; maximum := Some hi; step := Some st;
     choices := choices w |}.

Definition with_choices (cs : list pyval) (w : widget) : widget :=
  {| kind := kind w; label := label w; value := value w; info := info w;
     interactive := interactive w; visible := visible w;
     precision := precision w;
     minimum := minimum w; maximum := maximum w; step := step w;
     choices := Some cs |}.

(** ** The rendering monad *)

(** The state a renderer runs in: the dictionary object the caller passed as
    [defaults], or [None] when the caller passed [None] (or nothing). *)
Definition store : Type := option (gmap string pyval).

(** The exceptions a renderer raises. *)
Inductive exn :=
  | AttributeError (name : string).

(** A computation returns a value or raises, and leaves a state of the
    dictionary. *)
Definition Render (A : Type) : Type := store → (exn + A) * store.

#[global] Instance Render_ret : MRet Render := λ A a s, (inr a, s).
#[global] Instance Render_bind : MBind Render :=
  λ A B f m s,
    match m s with
    | (inl e, s') => (inl e, s')
    | (inr a, s') => f a s'
    end.

Definition raise {A} (e : exn) : Render A := λ s, (inl e, s).

Definition run {A} (m : Render A) (s : store) : (exn + A) * store := m s.

(** The dictionary the local name [defaults] denotes after the first
    statement of a renderer ([defaults = defaults or {}], or the equivalent
    test against [None]): the caller's object, or an empty dictionary. *)
Definition local_defaults (s : store) : gmap string pyval :=
  default ∅ s.

(** [defaults.get(key, fallback)]: a read of the dictionary.  The fallback
    is an argument of the call: it has been evaluated when the call is
    made. *)
Definition defaults_get (key : string) (fallback : pyval) : Render pyval :=
  λ s, (inr (default fallback (local_defaults s !! key)), s).

(** [cls.name], where [name] is a field of the model [cls]: the attribute
    is not on the class, and the metaclass raises. *)
Definition getattr_cls (name : string) : Render pyval :=
  raise (AttributeError name).

(** A list display [[e1, ..., en]]: the elements are evaluated from left to
    right. *)
Fixpoint collect {A} (ms : list (Render A)) : Render (list A) :=
  match ms with
  | [] => mret []
  | m :: ms => a ← m; as_ ← collect ms; mret (a :: as_)
  end.

(** [x if o is None else o] *)
Definition if_none {A} (x : A) (o : option A) : A := default x o.

(** ** Voice activity detection parameters *)

Module VadParams.

Record t := {
  vad_filter : bool;
  threshold : float;
  min_speech_duration_ms : Z;
  max_speech_duration_s : float;
  min_silence_duration_ms : Z;
  speech_pad_ms : Z
}.

(** The default declared for each field. *)
Definition cls : t := {|
  vad_filter := false;
  threshold := 0.5;
  min_speech_duration_ms := 250;
  max_speech_duration_s := infinity;
  min_silence_duration_ms := 2000;
  speech_pad_ms := 400
|}.

Definition field_names : list string :=
  [ "vad_filter"; "threshold"; "min_speech_duration_ms";
    "max_speech_duration_s"; "min_silence_duration_ms"; "speech_pad_ms" ].

(** The keyword arguments of the constructor; [None] is a keyword that was
    not passed. *)
Record kwargs := {
  kw_vad_filter : option bool;
  kw_threshold : option float;
  kw_min_speech_duration_ms : option Z;
  kw_max_speech_duration_s : option float;
  kw_min_silence_duration_ms : option Z;
  kw_speech_pad_ms : option Z
}.

Definition no_args : kwargs := {|
  kw_vad_filter := None;
  kw_threshold := None;
  kw_min_speech_duration_ms := None;
  kw_max_speech_duration_s := None;
  kw_min_silence_duration_ms := None;
  kw_speech_pad_ms := None
|}.

Definition errors (kw : kwargs) : ValidationError :=
  validate float_satisfies "threshold" [ge 0.0%float; le 1.0%float]
    (kw_threshold kw)
  ++ validate int_satisfies "min_speech_duration_ms" [ge 0]
    (kw_min_speech_duration_ms kw)
  ++ validate float_satisfies "max_speech_duration_s" [gt 0%float]
    (kw_max_speech_duration_s kw)
  ++ validate int_satisfies "min_silence_duration_ms" [ge 0]
    (kw_min_silence_duration_ms kw)
  ++ validate int_satisfies "speech_pad_ms" [ge 0]
    (kw_speech_pad_ms kw).

(** The constructor, called with keyword arguments. *)
Definition new (kw : kwargs) : ValidationError + t :=
  finish (errors kw) {|
    vad_filter := default (vad_filter cls) (kw_vad_filter kw);
    threshold := default (threshold cls) (kw_threshold kw);
    min_speech_duration_ms :=
      default (min_speech_duration_ms cls) (kw_min_speech_duration_ms kw);
    max_speech_duration_s :=
      default (max_speech_duration_s cls) (kw_max_speech_duration_s kw);
    min_silence_duration_ms :=
      default (min_silence_duration_ms cls) (kw_min_silence_duration_ms kw);
    speech_pad_ms := default (speech_pad_ms cls) (kw_speech_pad_ms kw)
  |}.

(** [model_dump()] *)
Definition to_dict (self : t) : list (string * pyval) :=
  [ ("vad_filter", PyBool (vad_filter self));
    ("threshold", PyFloat (threshold self));
    ("min_speech_duration_ms", PyInt (min_speech_duration_ms self));
    ("max_speech_duration_s", PyFloat (max_speech_duration_s self));
    ("min_silence_duration_ms", PyInt (min_silence_duration_ms self));
    ("speech_pad_ms", PyInt (speech_pad_ms self)) ].

Definition to_gradio_inputs : Render (list widget) :=
  collect [
    (fallback ← getattr_cls "vad_filter";
     v ← defaults_get "vad_filter" fallback;
     mret (with_interactive true
             (gr Checkbox "Enable Silero VAD Filter" v
                "Enable this to transcribe only detected voice")));
    (fallback ← getattr_cls "threshold";
     v ← defaults_get "threshold" fallback;
     mret (with_range (PyFloat 0.0) (PyFloat 1.0) (PyFloat 0.01)
             (gr Slider "Speech Threshold" v
                "Lower it to be more sensitive to small sounds.")));
    (fallback ← getattr_cls "min_speech_duration_ms";
     v ← defaults_get "min_speech_duration_ms" fallback;
     mret (with_precision 0
             (gr Number "Minimum Speech Duration (ms)" v
                "Final speech chunks shorter than this time are thrown out")));
    (fallback ← getattr_cls "max_speech_duration_s";
     v ← defaults_get "max_speech_duration_s" fallback;
     mret (gr Number "Maximum Speech Duration (s)" v
             ("Maximum duration of speech chunks in " +:+ dquote
              +:+ "seconds" +:+ dquote +:+ ".")));
    (fallback ← getattr_cls "min_silence_duration_ms";
     v ← defaults_get "min_silence_duration_ms" fallback;
     mret (with_precision 0
             (gr Number "Minimum Silence Duration (ms)" v
                "In the end of each speech chunk wait for this time before separating it")));
    (fallback ← getattr_cls "speech_pad_ms";
     v ← defaults_get "speech_pad_ms" fallback;
     mret (with_precision 0
             (gr Number "Speech Padding (ms)" v
                "Final speech chunks are padded by this time each side")))
  ].

End VadParams.

(** ** Speaker diarization parameters *)

Module DiarizationParams.

Record t := {
  is_diarize : bool;
  hf_token : string
}.

Definition cls : t := {| is_diarize := false; hf_token := EmptyString |}.

Definition field_names : list string := [ "is_diarize"; "hf_token" ].

Record kwargs := {
  kw_is_diarize : option bool;
  kw_hf_token : option string
}.

Definition no_args : kwargs :=
  {| kw_is_diarize := None; kw_hf_token := None |}.

(** No field of this record declares a bound. *)
Definition errors (kw : kwargs) : ValidationError := [].

Definition new (kw : kwargs) : ValidationError + t :=
  finish (errors kw) {|
    is_diarize := default (is_diarize cls) (kw_is_diarize kw);
    hf_token := default (hf_token cls) (kw_hf_token kw)
  |}.

Definition to_dict (self : t) : list (string * pyval) :=
  [ ("is_diarize", PyBool (is_diarize self));
    ("hf_token", PyStr (hf_token self)) ].

Definition to_gradio_inputs
    (available_devices : option (list pyval)) (device : option string)
    : Render (list widget) :=
  collect [
    (fallback ← getattr_cls "is_diarize";
     v ← defaults_get "is_diarize" fallback;
     mret (gr Checkbox "Enable Diarization" v "Enable speaker diarization"));
    (fallback ← getattr_cls "hf_token";
     v ← defaults_get "hf_token" fallback;
     mret (gr Textbox "HuggingFace Token" v
             "This is only needed the first time you download the model"));
    mret (with_choices
            (if_none [PyStr "cpu"; PyStr "cuda"] available_devices)
            (gr Dropdown "Device" (PyStr (if_none "cuda" device))
               "Device to run diarization model"))
  ].

End DiarizationParams.

(** ** Background music separation parameters *)

Module BGMSeparationParams.

Record t := {
  is_separate_bgm : bool;
  model_size : string;
  segment_size : Z;
  save_file : bool;
  enable_offload : bool
}.

Definition cls : t := {|
  is_separate_bgm := false;
  model_size := "UVR-MDX-NET-Inst_HQ_4";
  segment_size := 256;
  save_file := false;
  enable_offload := true
|}.

Definition field_names : list string :=
  [ "is_separate_bgm"; "model_size"; "segment_size"; "save_file";
    "enable_offload" ].

Record kwargs := {
  kw_is_separate_bgm : option bool;
  kw_model_size : option string;
  kw_segment_size : option Z;
  kw_save_file : option bool;
  kw_enable_offload : option bool
}.

Definition no_args : kwargs := {|
  kw_is_separate_bgm := None;
  kw_model_size := None;
  kw_segment_size := None;
  kw_save_file := None;
  kw_enable_offload := None
|}.

(** The keyword arguments [kw] with [model_size=v] added or replaced. *)
Definition set_model_size (v : string) (kw : kwargs) : kwargs := {|
  kw_is_separate_bgm := kw_is_separate_bgm kw;
  kw_model_size := Some v;
  kw_segment_size := kw_segment_size kw;
  kw_save_file := kw_save_file kw;
  kw_enable_offload := kw_enable_offload kw
|}.

Definition errors (kw : kwargs) : ValidationError :=
  validate int_satisfies "segment_size" [gt 0] (kw_segment_size kw).

Definition new (kw : kwargs) : ValidationError + t :=
  finish (errors kw) {|
    is_separate_bgm := default (is_separate_bgm cls) (kw_is_separate_bgm kw);
    model_size := default (model_size cls) (kw_model_size kw);
    segment_size := default (segment_size cls) (kw_segment_size kw);
    save_file := default (save_file cls) (kw_save_file kw);
    enable_offload := default (enable_offload cls) (kw_enable_offload kw)
  |}.

Definition to_dict (self : t) : list (string * pyval) :=
  [ ("is_separate_bgm", PyBool (is_separate_bgm self));
    ("model_size", PyStr (model_size self));
    ("segment_size", PyInt (segment_size self));
    ("save_file", PyBool (save_file self));
    ("enable_offload", PyBool (enable_offload self)) ].

(** The models the "Model" dropdown offers when the caller names none. *)
Definition model_choices : list string :=
  [ "UVR-MDX-NET-Inst_HQ_4"; "UVR-MDX-NET-Inst_3" ].

Definition to_gradio_input
    (available_devices : option (list pyval)) (device : option string)
    (available_models : option (list pyval))
    : Render (list widget) :=
  collect [
    (fallback ← getattr_cls "is_separate_bgm";
     v ← defaults_get "is_separate_bgm" fallback;
     mret (with_interactive true
             (gr Checkbox "Enable Background Music Remover Filter" v
                "Enabling this will remove background music")));
    mret (with_choices
            (if_none [PyStr "cpu"; PyStr "cuda"] available_devices)
            (gr Dropdown "Device" (PyStr (if_none "cuda" device))
               "Device to run UVR model"));
    (fallback ← getattr_cls "model_size";
     v ← defaults_get "model_size" fallback;
     mret (with_choices (if_none (PyStr <$> model_choices) available_models)
             (gr Dropdown "Model" v "UVR model size")));
    (fallback ← getattr_cls "segment_size";
     v ← defaults_get "segment_size" fallback;
     mret (with_precision 0
             (gr Number "Segment Size" v "Segment size for UVR model")));
    (fallback ← getattr_cls "save_file";
     v ← defaults_get "save_file" fallback;
     mret (gr Checkbox "Save separated files to output" v
             "Whether to save separated audio files"));
    (fallback ← getattr_cls "enable_offload";
     v ← defaults_get "enable_offload" fallback;
     mret (gr Checkbox "Offload sub model after removing background music" v
             "Offload UVR model after transcription"))
  ].

End BGMSeparationParams.

(** ** Whisper decoding parameters *)

Module WhisperParams.

Record t := {
  model_size : string;
  lang : option string;
  is_translate : bool;
  beam_size : Z;
  log_prob_threshold : float;
  no_speech_threshold : float;
  compute_type : string;
  best_of : Z;
  patience : float;
  condition_on_previous_text : bool;
  prompt_reset_on_temperature : float;
  initial_prompt : option string;
  temperature : float;
  compression_ratio_threshold : float;
  batch_size : Z;
  length_penalty : float;
  repetition_penalty : float;
  no_repeat_ngram_size : Z;
  prefix : option string;
  suppress_blank : bool;
  suppress_tokens : option string;
  max_initial_timestamp : float;
  word_timestamps : bool;
  prepend_punctuations : option string;
  append_punctuations : option string;
  max_new_tokens : option Z;
  chunk_length : option Z;
  hallucination_silence_threshold : option float;
  hotwords : option string;
  language_detection_threshold : option float;
  language_detection_segments : Z
}.

(** The default declared for each field. *)
Definition cls : t := {|
  model_size := "large-v2";
  lang := None;
  is_translate := false;
  beam_size := 5;
  log_prob_threshold := (-1.0)%float;
  no_speech_threshold := 0.6%float;
  compute_type := "float16";
  best_of := 5;
  patience := 1.0%float;
  condition_on_previous_text := true;
  prompt_reset_on_temperature := 0.5%float;
  initial_prompt := None;
  temperature := 0.0%float;
  compression_ratio_threshold := 2.4%float;
  batch_size := 24;
  length_penalty := 1.0%float;
  repetition_penalty := 1.0%float;
  no_repeat_ngram_size := 0;
  prefix := None;
  suppress_blank := true;
  suppress_tokens := Some "[-1]";
  max_initial_timestamp := 0.0%float;
  word_timestamps := false;
  prepend_punctuations := Some (dquote +:+ "'“¿([{-");
  append_punctuations := Some (dquote +:+ "'.。,，!！?？:：”)]}、");
  max_new_tokens := None;
  chunk_length := Some 30;
  hallucination_silence_threshold := None;
  hotwords := None;
  language_detection_threshold := None;
  language_detection_segments := 1
|}.

Definition field_names : list string :=
  [ "model_size";
    "lang";
    "is_translate";
    "beam_size";
    "log_prob_threshold";
    "no_speech_threshold";
    "compute_type";
    "best_of";
    "patience";
    "condition_on_previous_text";
    "prompt_reset_on_temperature";
    "initial_prompt";
    "temperature";
    "compression_ratio_threshold";
    "batch_size";
    "length_penalty";
    "repetition_penalty";
    "no_repeat_ngram_size";
    "prefix";
    "suppress_blank";
    "suppress_tokens";
    "max_initial_timestamp";
    "word_timestamps";
    "prepend_punctuations";
    "append_punctuations";
    "max_new_tokens";
    "chunk_length";
    "hallucination_silence_threshold";
    "hotwords";
    "language_detection_threshold";
    "language_detection_segments" ].

Record kwargs := {
  kw_model_size : option (string);
  kw_lang : option (option string);
  kw_is_translate : option (bool);
  kw_beam_size : option (Z);
  kw_log_prob_threshold : option (float);
  kw_no_speech_threshold : option (float);
  kw_compute_type : option (string);
  kw_best_of : option (Z);
  kw_patience : option (float);
  kw_condition_on_previous_text : option (bool);
  kw_prompt_reset_on_temperature : option (float);
  kw_initial_prompt : option (option string);
  kw_temperature : option (float);
  kw_compression_ratio_threshold : option (float);
  kw_batch_size : option (Z);
  kw_length_penalty : option (float);
  kw_repetition_penalty : option (float);
  kw_no_repeat_ngram_size : option (Z);
  kw_prefix : option (option string);
  kw_suppress_blank : option (bool);
  kw_suppress_tokens : option (option string);
  kw_max_initial_timestamp : option (float);
  kw_word_timestamps : option (bool);
  kw_prepend_punctuations : option (option string);
  kw_append_punctuations : option (option string);
  kw_max_new_tokens : option (option Z);
  kw_chunk_length : option (option Z);
  kw_hallucination_silence_threshold : option (option float);
  kw_hotwords : option (option string);
  kw_language_detection_threshold : option (option float);
  kw_language_detection_segments : option (Z)
}.

Definition no_args : kwargs := {|
  kw_model_size := None;
  kw_lang := None;
  kw_is_translate := None;
  kw_beam_size := None;
  kw_log_prob_threshold := None;
  kw_no_speech_threshold := None;
  kw_compute_type := None;
  kw_best_of := None;
  kw_patience := None;
  kw_condition_on_previous_text := None;
  kw_prompt_reset_on_temperature := None;
  kw_initial_prompt := None;
  kw_temperature := None;
  kw_compression_ratio_threshold := None;
  kw_batch_size := None;
  kw_length_penalty := None;
  kw_repetition_penalty := None;
  kw_no_repeat_ngram_size := None;
  kw_prefix := None;
  kw_suppress_blank := None;
  kw_suppress_tokens := None;
  kw_max_initial_timestamp := None;
  kw_word_timestamps := None;
  kw_prepend_punctuations := None;
  kw_append_punctuations := None;
  kw_max_new_tokens := None;
  kw_chunk_length := None;
  kw_hallucination_silence_threshold := None;
  kw_hotwords := None;
  kw_language_detection_threshold := None;
  kw_language_detection_segments := None
|}.

(** The keyword arguments [kw] with [model_size=v] added or replaced. *)
Definition set_model_size (v : string) (kw : kwargs) : kwargs := {|
  kw_model_size := Some v;
  kw_lang := kw_lang kw;
  kw_is_translate := kw_is_translate kw;
  kw_beam_size := kw_beam_size kw;
  kw_log_prob_threshold := kw_log_prob_threshold kw;
  kw_no_speech_threshold := kw_no_speech_threshold kw;
  kw_compute_type := kw_compute_type kw;
  kw_best_of := kw_best_of kw;
  kw_patience := kw_patience kw;
  kw_condition_on_previous_text := kw_condition_on_previous_text kw;
  kw_prompt_reset_on_temperature := kw_prompt_reset_on_temperature kw;
  kw_initial_prompt := kw_initial_prompt kw;
  kw_temperature := kw_temperature kw;
  kw_compression_ratio_threshold := kw_compression_ratio_threshold kw;
  kw_batch_size := kw_batch_size kw;
  kw_length_penalty := kw_length_penalty kw;
  kw_repetition_penalty := kw_repetition_penalty kw;
  kw_no_repeat_ngram_size := kw_no_repeat_ngram_size kw;
  kw_prefix := kw_prefix kw;
  kw_suppress_blank := kw_suppress_blank kw;
  kw_suppress_tokens := kw_suppress_tokens kw;
  kw_max_initial_timestamp := kw_max_initial_timestamp kw;
  kw_word_timestamps := kw_word_timestamps kw;
  kw_prepend_punctuations := kw_prepend_punctuations kw;
  kw_append_punctuations := kw_append_punctuations kw;
  kw_max_new_tokens := kw_max_new_tokens kw;
  kw_chunk_length := kw_chunk_length kw;
  kw_hallucination_silence_threshold := kw_hallucination_silence_threshold kw;
  kw_hotwords := kw_hotwords kw;
  kw_language_detection_threshold := kw_language_detection_threshold kw;
  kw_language_detection_segments := kw_language_detection_segments kw
|}.

(** The keyword arguments [kw] with [lang=v] added or replaced. *)
Definition set_lang (v : option string) (kw : kwargs) : kwargs := {|
  kw_model_size := kw_model_size kw;
  kw_lang := Some v;
  kw_is_translate := kw_is_translate kw;
  kw_beam_size := kw_beam_size kw;
  kw_log_prob_threshold := kw_log_prob_threshold kw;
  kw_no_speech_threshold := kw_no_speech_threshold kw;
  kw_compute_type := kw_compute_type kw;
  kw_best_of := kw_best_of kw;
  kw_patience := kw_patience kw;
  kw_condition_on_previous_text := kw_condition_on_previous_text kw;
  kw_prompt_reset_on_temperature := kw_prompt_reset_on_temperature kw;
  kw_initial_prompt := kw_initial_prompt kw;
  kw_temperature := kw_temperature kw;
  kw_compression_ratio_threshold := kw_compression_ratio_threshold kw;
  kw_batch_size := kw_batch_size kw;
  kw_length_penalty := kw_length_penalty kw;
  kw_repetition_penalty := kw_repetition_penalty kw;
  kw_no_repeat_ngram_size := kw_no_repeat_ngram_size kw;
  kw_prefix := kw_prefix kw;
  kw_suppress_blank := kw_suppress_blank kw;
  kw_suppress_tokens := kw_suppress_tokens kw;
  kw_max_initial_timestamp := kw_max_initial_timestamp kw;
  kw_word_timestamps := kw_word_timestamps kw;
  kw_prepend_punctuations := kw_prepend_punctuations kw;
  kw_append_punctuations := kw_append_punctuations kw;
  kw_max_new_tokens := kw_max_new_tokens kw;
  kw_chunk_length := kw_chunk_length kw;
  kw_hallucination_silence_threshold := kw_hallucination_silence_threshold kw;
  kw_hotwords := kw_hotwords kw;
  kw_language_detection_threshold := kw_language_detection_threshold kw;
  kw_language_detection_segments := kw_language_detection_segments kw
|}.

(** The keyword arguments [kw] with [compute_type=v] added or replaced. *)
Definition set_compute_type (v : string) (kw : kwargs) : kwargs := {|
  kw_model_size := kw_model_size kw;
  kw_lang := kw_lang kw;
  kw_is_translate := kw_is_translate kw;
  kw_beam_size := kw_beam_size kw;
  kw_log_prob_threshold := kw_log_prob_threshold kw;
  kw_no_speech_threshold := kw_no_speech_threshold kw;
  kw_compute_type := Some v;
  kw_best_of := kw_best_of kw;
  kw_patience := kw_patience kw;
  kw_condition_on_previous_text := kw_condition_on_previous_text kw;
  kw_prompt_reset_on_temperature := kw_prompt_reset_on_temperature kw;
  kw_initial_prompt := kw_initial_prompt kw;
  kw_temperature := kw_temperature kw;
  kw_compression_ratio_threshold := kw_compression_ratio_threshold kw;
  kw_batch_size := kw_batch_size kw;
  kw_length_penalty := kw_length_penalty kw;
  kw_repetition_penalty := kw_repetition_penalty kw;
  kw_no_repeat_ngram_size := kw_no_repeat_ngram_size kw;
  kw_prefix := kw_prefix kw;
  kw_suppress_blank := kw_suppress_blank kw;
  kw_suppress_tokens := kw_suppress_tokens kw;
  kw_max_initial_timestamp := kw_max_initial_timestamp kw;
  kw_word_timestamps := kw_word_timestamps kw;
  kw_prepend_punctuations := kw_prepend_punctuations kw;
  kw_append_punctuations := kw_append_punctuations kw;
  kw_max_new_tokens := kw_max_new_tokens kw;
  kw_chunk_length := kw_chunk_length kw;
  kw_hallucination_silence_threshold := kw_hallucination_silence_threshold kw;
  kw_hotwords := kw_hotwords kw;
  kw_language_detection_threshold := kw_language_detection_threshold kw;
  kw_language_detection_segments := kw_language_detection_segments kw
|}.

(** The keyword arguments [kw] with [patience=v] added or replaced. *)
Definition set_patience (v : float) (kw : kwargs) : kwargs := {|
  kw_model_size := kw_model_size kw;
  kw_lang := kw_lang kw;
  kw_is_translate := kw_is_translate kw;
  kw_beam_size := kw_beam_size kw;
  kw_log_prob_threshold := kw_log_prob_threshold kw;
  kw_no_speech_threshold := kw_no_speech_threshold kw;
  kw_compute_type := kw_compute_type kw;
  kw_best_of := kw_best_of kw;
  kw_patience := Some v;
  kw_condition_on_previous_text := kw_condition_on_previous_text kw;
  kw_prompt_reset_on_temperature := kw_prompt_reset_on_temperature kw;
  kw_initial_prompt := kw_initial_prompt kw;
  kw_temperature := kw_temperature kw;
  kw_compression_ratio_threshold := kw_compression_ratio_threshold kw;
  kw_batch_size := kw_batch_size kw;
  kw_length_penalty := kw_length_penalty kw;
  kw_repetition_penalty := kw_repetition_penalty kw;
  kw_no_repeat_ngram_size := kw_no_repeat_ngram_size kw;
  kw_prefix := kw_prefix kw;
  kw_suppress_blank := kw_suppress_blank kw;
  kw_suppress_tokens := kw_suppress_tokens kw;
  kw_max_initial_timestamp := kw_max_initial_timestamp kw;
  kw_word_timestamps := kw_word_timestamps kw;
  kw_prepend_punctuations := kw_prepend_punctuations kw;
  kw_append_punctuations := kw_append_punctuations kw;
  kw_max_new_tokens := kw_max_new_tokens kw;
  kw_chunk_length := kw_chunk_length kw;
  kw_hallucination_silence_threshold := kw_hallucination_silence_threshold kw;
  kw_hotwords := kw_hotwords kw;
  kw_language_detection_threshold := kw_language_detection_threshold kw;
  kw_language_detection_segments := kw_language_detection_segments kw
|}.

(** The keyword arguments [kw] with [beam_size=v] added or replaced. *)
Definition set_beam_size (v : Z) (kw : kwargs) : kwargs := {|
  kw_model_size := kw_model_size kw;
  kw_lang := kw_lang kw;
  kw_is_translate := kw_is_translate kw;
  kw_beam_size := Some v;
  kw_log_prob_threshold := kw_log_prob_threshold kw;
  kw_no_speech_threshold := kw_no_speech_threshold kw;
  kw_compute_type := kw_compute_type kw;
  kw_best_of := kw_best_of kw;
  kw_patience := kw_patience kw;
  kw_condition_on_previous_text := kw_condition_on_previous_text kw;
  kw_prompt_reset_on_temperature := kw_prompt_reset_on_temperature kw;
  kw_initial_prompt := kw_initial_prompt kw;
  kw_temperature := kw_temperature kw;
  kw_compression_ratio_threshold := kw_compression_ratio_threshold kw;
  kw_batch_size := kw_batch_size kw;
  kw_length_penalty := kw_length_penalty kw;
  kw_repetition_penalty := kw_repetition_penalty kw;
  kw_no_repeat_ngram_size := kw_no_repeat_ngram_size kw;
  kw_prefix := kw_prefix kw;
  kw_suppress_blank := kw_suppress_blank kw;
  kw_suppress_tokens := kw_suppress_tokens kw;
  kw_max_initial_timestamp := kw_max_initial_timestamp kw;
  kw_word_timestamps := kw_word_timestamps kw;
  kw_prepend_punctuations := kw_prepend_punctuations kw;
  kw_append_punctuations := kw_append_punctuations kw;
  kw_max_new_tokens := kw_max_new_tokens kw;
  kw_chunk_length := kw_chunk_length kw;
  kw_hallucination_silence_threshold := kw_hallucination_silence_threshold kw;
  kw_hotwords := kw_hotwords kw;
  kw_language_detection_threshold := kw_language_detection_threshold kw;
  kw_language_detection_segments := kw_language_detection_segments kw
|}.

Definition errors (kw : kwargs) : ValidationError :=
  validate int_satisfies "beam_size" [ge 1]
    (kw_beam_size kw)
  ++ validate float_satisfies "no_speech_threshold" [ge 0.0%float; le 1.0%float]
    (kw_no_speech_threshold kw)
  ++ validate int_satisfies "best_of" [ge 1]
    (kw_best_of kw)
  ++ validate float_satisfies "patience" [gt 0%float]
    (kw_patience kw)
  ++ validate float_satisfies "prompt_reset_on_temperature"
       [ge 0.0%float; le 1.0%float]
    (kw_prompt_reset_on_temperature kw)
  ++ validate float_satisfies "temperature" [ge 0.0%float]
    (kw_temperature kw)
  ++ validate float_satisfies "compression_ratio_threshold" [gt 0%float]
    (kw_compression_ratio_threshold kw)
  ++ validate int_satisfies "batch_size" [gt 0]
    (kw_batch_size kw)
  ++ validate float_satisfies "length_penalty" [gt 0%float]
    (kw_length_penalty kw)
  ++ validate float_satisfies "repetition_penalty" [gt 0%float]
    (kw_repetition_penalty kw)
  ++ validate int_satisfies "no_repeat_ngram_size" [ge 0]
    (kw_no_repeat_ngram_size kw)
  ++ validate float_satisfies "max_initial_timestamp" [ge 0.0%float]
    (kw_max_initial_timestamp kw)
  ++ validate int_satisfies "language_detection_segments" [gt 0]
    (kw_language_detection_segments kw).

Section Construction.

(** The string [AUTOMATIC_DETECTION.unwrap()] evaluates to; the constant
    is declared in [modules/utils/constants.py]. *)
Variable AUTOMATIC_DETECTION : string.

(** The validator registered for [lang]; it runs on a supplied value. *)
Definition validate_lang (v : option string) : option string :=
  if str_eq AUTOMATIC_DETECTION (py_option PyStr v) then None else v.

(** The constructor, called with keyword arguments. *)
Definition new (kw : kwargs) : ValidationError + t :=
  finish (errors kw) {|
    model_size := default (model_size cls) (kw_model_size kw);
    lang := default (lang cls) (validate_lang <$> kw_lang kw);
    is_translate := default (is_translate cls) (kw_is_translate kw);
    beam_size := default (beam_size cls) (kw_beam_size kw);
    log_prob_threshold := default (log_prob_threshold cls)
      (kw_log_prob_threshold kw);
    no_speech_threshold := default (no_speech_threshold cls)
      (kw_no_speech_threshold kw);
    compute_type := default (compute_type cls) (kw_compute_type kw);
    best_of := default (best_of cls) (kw_best_of kw);
    patience := default (patience cls) (kw_patience kw);
    condition_on_previous_text := default (condition_on_previous_text cls)
      (kw_condition_on_previous_text kw);
    prompt_reset_on_temperature := default (prompt_reset_on_temperature cls)
      (kw_prompt_reset_on_temperature kw);
    initial_prompt := default (initial_prompt cls) (kw_initial_prompt kw);
    temperature := default (temperature cls) (kw_temperature kw);
    compression_ratio_threshold := default (compression_ratio_threshold cls)
      (kw_compression_ratio_threshold kw);
    batch_size := default (batch_size cls) (kw_batch_size kw);
    length_penalty := default (length_penalty cls) (kw_length_penalty kw);
    repetition_penalty := default (repetition_penalty cls)
      (kw_repetition_penalty kw);
    no_repeat_ngram_size := default (no_repeat_ngram_size cls)
      (kw_no_repeat_ngram_size kw);
    prefix := default (prefix cls) (kw_prefix kw);
    suppress_blank := default (suppress_blank cls) (kw_suppress_blank kw);
    suppress_tokens := default (suppress_tokens cls) (kw_suppress_tokens kw);
    max_initial_timestamp := default (max_initial_timestamp cls)
      (kw_max_initial_timestamp kw);
    word_timestamps := default (word_timestamps cls) (kw_word_timestamps kw);
    prepend_punctuations := default (prepend_punctuations cls)
      (kw_prepend_punctuations kw);
    append_punctuations := default (append_punctuations cls)
      (kw_append_punctuations kw);
    max_new_tokens := default (max_new_tokens cls) (kw_max_new_tokens kw);
    chunk_length := default (chunk_length cls) (kw_chunk_length kw);
    hallucination_silence_threshold := default (hallucination_silence_threshold cls)
      (kw_hallucination_silence_threshold kw);
    hotwords := default (hotwords cls) (kw_hotwords kw);
    language_detection_threshold := default (language_detection_threshold cls)
      (kw_language_detection_threshold kw);
    language_detection_segments := default (language_detection_segments cls)
      (kw_language_detection_segments kw)
  |}.

End Construction.

(** [model_dump()] *)
Definition to_dict (self : t) : list (string * pyval) :=
  [ ("model_size", PyStr (model_size self));
    ("lang", py_option PyStr (lang self));
    ("is_translate", PyBool (is_translate self));
    ("beam_size", PyInt (beam_size self));
    ("log_prob_threshold", PyFloat (log_prob_threshold self));
    ("no_speech_threshold", PyFloat (no_speech_threshold self));
    ("compute_type", PyStr (compute_type self));
    ("best_of", PyInt (best_of self));
    ("patience", PyFloat (patience self));
    ("condition_on_previous_text", PyBool (condition_on_previous_text self));
    ("prompt_reset_on_temperature", PyFloat (prompt_reset_on_temperature self));
    ("initial_prompt", py_option PyStr (initial_prompt self));
    ("temperature", PyFloat (temperature self));
    ("compression_ratio_threshold", PyFloat (compression_ratio_threshold self));
    ("batch_size", PyInt (batch_size self));
    ("length_penalty", PyFloat (length_penalty self));
    ("repetition_penalty", PyFloat (repetition_penalty self));
    ("no_repeat_ngram_size", PyInt (no_repeat_ngram_size self));
    ("prefix", py_option PyStr (prefix self));
    ("suppress_blank", PyBool (suppress_blank self));
    ("suppress_tokens", py_option PyStr (suppress_tokens self));
    ("max_initial_timestamp", PyFloat (max_initial_timestamp self));
    ("word_timestamps", PyBool (word_timestamps self));
    ("prepend_punctuations", py_option PyStr (prepend_punctuations self));
    ("append_punctuations", py_option PyStr (append_punctuations self));
    ("max_new_tokens", py_option PyInt (max_new_tokens self));
    ("chunk_length", py_option PyInt (chunk_length self));
    ("hallucination_silence_threshold", py_option PyFloat (hallucination_silence_threshold self));
    ("hotwords", py_option PyStr (hotwords self));
    ("language_detection_threshold", py_option PyFloat (language_detection_threshold self));
    ("language_detection_segments", PyInt (language_detection_segments self)) ].

(** The sizes the "Model Size" dropdown offers. *)
Definition model_size_choices : list string :=
  [ "small"; "medium"; "large-v2" ].

(** The types the "Compute Type" dropdown offers when the caller names
    none. *)
Definition compute_type_choices : list string :=
  [ "float16"; "int8"; "int16" ].

(** [not only_advanced] *)
Definition not_ (only_advanced : option bool) : bool :=
  negb (truthy (py_option PyBool only_advanced)).

(** The renderer.  A call that omits [only_advanced] passes [Some true];
    one that omits any of the other three arguments passes [PyNone],
    respectively [None].  [whisper_type] is annotated
    [Optional[WhisperImpl]]; the annotation is not enforced, so the
    argument is any value. *)
Definition to_gradio_inputs
    (only_advanced : option bool) (whisper_type : pyval)
    (available_compute_types : option (list pyval))
    (compute_type : option string)
    : Render (list widget) :=
  let whisper_type :=
    match whisper_type with
    | PyNone => PyEnum FASTER_WHISPER
    | _ => whisper_type
    end in
  let inputs := [] in
  inputs ←
    (if not_ only_advanced then
       more ← collect [
         (fallback ← getattr_cls "model_size";
          v ← defaults_get "model_size" fallback;
          mret (with_choices (PyStr <$> model_size_choices)
                   (gr Dropdown "Model Size" v
                      "Whisper model size")));
         (fallback ← getattr_cls "lang";
          v ← defaults_get "lang" fallback;
          mret (gr Textbox "Language" v
                      "Source language of the file to transcribe"));
         (fallback ← getattr_cls "is_translate";
          v ← defaults_get "is_translate" fallback;
          mret (gr Checkbox "Translate to English" v
                      "Translate speech to English end-to-end"))
       ];
       mret (inputs ++ more)
     else mret inputs);
  more ← collect [
    (fallback ← getattr_cls "beam_size";
     v ← defaults_get "beam_size" fallback;
     mret (with_precision 0
              (gr Number "Beam Size" v
                 "Beam size for decoding")));
    (fallback ← getattr_cls "log_prob_threshold";
     v ← defaults_get "log_prob_threshold" fallback;
     mret (gr Number "Log Probability Threshold" v
                 "Threshold for average log probability of sampled tokens"));
    (fallback ← getattr_cls "no_speech_threshold";
     v ← defaults_get "no_speech_threshold" fallback;
     mret (gr Number "No Speech Threshold" v
                 "Threshold for detecting silence"));
    (v ← defaults_get "compute_type" (py_option PyStr compute_type);
     mret (with_choices
              (if_none (PyStr <$> compute_type_choices)
                 available_compute_types)
              (gr Dropdown "Compute Type" v
                 "Computation type for transcription")));
    (fallback ← getattr_cls "best_of";
     v ← defaults_get "best_of" fallback;
     mret (with_precision 0
              (gr Number "Best Of" v
                 "Number of candidates when sampling")));
    (fallback ← getattr_cls "patience";
     v ← defaults_get "patience" fallback;
     mret (gr Number "Patience" v
                 "Beam search patience factor"));
    (fallback ← getattr_cls "condition_on_previous_text";
     v ← defaults_get "condition_on_previous_text" fallback;
     mret (gr Checkbox "Condition On Previous Text" v
                 "Use previous output as prompt for next window"));
    (fallback ← getattr_cls "prompt_reset_on_temperature";
     v ← defaults_get "prompt_reset_on_temperature" fallback;
     mret (with_range (PyInt 0) (PyInt 1) (PyFloat 0.01)
              (gr Slider "Prompt Reset On Temperature" v
                 "Temperature threshold for resetting prompt")));
    (fallback ← getattr_cls "initial_prompt";
     v ← defaults_get "initial_prompt" fallback;
     mret (gr Textbox "Initial Prompt" v
                 "Initial prompt for first window"));
    (fallback ← getattr_cls "temperature";
     v ← defaults_get "temperature" fallback;
     mret (with_range (PyFloat 0.0) (PyFloat 1.0) (PyFloat 0.01)
              (gr Slider "Temperature" v
                 "Temperature for sampling")));
    (fallback ← getattr_cls "compression_ratio_threshold";
     v ← defaults_get "compression_ratio_threshold" fallback;
     mret (gr Number "Compression Ratio Threshold" v
                 "Threshold for gzip compression ratio"))
  ];
  let inputs := inputs ++ more in
  inputs ←
    (if enum_eq FASTER_WHISPER whisper_type then
       more ← collect [
         (fallback ← getattr_cls "length_penalty";
          v ← defaults_get "length_penalty" fallback;
          mret (with_visible (str_eq "faster_whisper" whisper_type)
                   (gr Number "Length Penalty" v
                      "Exponential length penalty")));
         (fallback ← getattr_cls "repetition_penalty";
          v ← defaults_get "repetition_penalty" fallback;
          mret (gr Number "Repetition Penalty" v
                      "Penalty for repeated tokens"));
         (fallback ← getattr_cls "no_repeat_ngram_size";
          v ← defaults_get "no_repeat_ngram_size" fallback;
          mret (with_precision 0
                   (gr Number "No Repeat N-gram Size" v
                      "Size of n-grams to prevent repetition")));
         (fallback ← getattr_cls "prefix";
          v ← defaults_get "prefix" fallback;
          mret (gr Textbox "Prefix" v
                      "Prefix text for first window"));
         (fallback ← getattr_cls "suppress_blank";
          v ← defaults_get "suppress_blank" fallback;
          mret (gr Checkbox "Suppress Blank" v
                      "Suppress blank outputs at start of sampling"));
         (fallback ← getattr_cls "suppress_tokens";
          v ← defaults_get "suppress_tokens" fallback;
          mret (gr Textbox "Suppress Tokens" v
                      "Token IDs to suppress"));
         (fallback ← getattr_cls "max_initial_timestamp";
          v ← defaults_get "max_initial_timestamp" fallback;
          mret (gr Number "Max Initial Timestamp" v
                      "Maximum initial timestamp"));
         (fallback ← getattr_cls "word_timestamps";
          v ← defaults_get "word_timestamps" fallback;
          mret (gr Checkbox "Word Timestamps" v
                      "Extract word-level timestamps"));
         (fallback ← getattr_cls "prepend_punctuations";
          v ← defaults_get "prepend_punctuations" fallback;
          mret (gr Textbox "Prepend Punctuations" v
                      "Punctuations to merge with next word"));
         (fallback ← getattr_cls "append_punctuations";
          v ← defaults_get "append_punctuations" fallback;
          mret (gr Textbox "Append Punctuations" v
                      "Punctuations to merge with previous word"));
         (fallback ← getattr_cls "max_new_tokens";
          v ← defaults_get "max_new_tokens" fallback;
          mret (with_precision 0
                   (gr Number "Max New Tokens" v
                      "Maximum number of new tokens per chunk")));
         (fallback ← getattr_cls "chunk_length";
          v ← defaults_get "chunk_length" fallback;
          mret (with_precision 0
                   (gr Number "Chunk Length (s)" v
                      "Length of audio segments in seconds")));
         (fallback ← getattr_cls "hallucination_silence_threshold";
          v ← defaults_get "hallucination_silence_threshold" fallback;
          mret (gr Number "Hallucination Silence Threshold (sec)" v
                      "Threshold for skipping silent periods in hallucination detection"));
         (fallback ← getattr_cls "hotwords";
          v ← defaults_get "hotwords" fallback;
          mret (gr Textbox "Hotwords" v
                      "Hotwords/hint phrases for the model"));
         (fallback ← getattr_cls "language_detection_threshold";
          v ← defaults_get "language_detection_threshold" fallback;
          mret (gr Number "Language Detection Threshold" v
                      "Threshold for language detection probability"));
         (fallback ← getattr_cls "language_detection_segments";
          v ← defaults_get "language_detection_segments" fallback;
          mret (with_precision 0
                   (gr Number "Language Detection Segments" v
                      "Number of segments for language detection")))
       ];
       mret (inputs ++ more)
     else mret inputs);
  inputs ←
    (if enum_eq INSANELY_FAST_WHISPER whisper_type then
       more ← collect [
         (fallback ← getattr_cls "batch_size";
          v ← defaults_get "batch_size" fallback;
          mret (with_visible (str_eq "insanely_fast_whisper" whisper_type)
                   (with_precision 0
                   (gr Number "Batch Size" v
                      "Batch size for processing"))))
       ];
       mret (inputs ++ more)
     else mret inputs);
  mret inputs.

End WhisperParams.

(** ** The parameter bundle *)

Module TranscriptionPipelineParams.

Record t := {
  whisper : WhisperParams.t;
  vad : VadParams.t;
  diarization : DiarizationParams.t;
  bgm_separation : BGMSeparationParams.t
}.

Definition field_names : list string :=
  [ "whisper"; "vad"; "diarization"; "bgm_separation" ].

Record kwargs := {
  kw_whisper : option WhisperParams.t;
  kw_vad : option VadParams.t;
  kw_diarization : option DiarizationParams.t;
  kw_bgm_separation : option BGMSeparationParams.t
}.

Definition no_args : kwargs := {|
  kw_whisper := None;
  kw_vad := None;
  kw_diarization := None;
  kw_bgm_separation := None
|}.

(** A field declared with [default_factory]: the factory is called when
    the keyword was not passed, and an exception it raises ends the
    construction. *)
Definition field {A B} (supplied : option A)
    (default_factory : ValidationError + A)
    (rest : A → ValidationError + B) : ValidationError + B :=
  match supplied with
  | Some a => rest a
  | None =>
      match default_factory with
      | inl e => inl e
      | inr a => rest a
      end
  end.

Section Construction.

Variable AUTOMATIC_DETECTION : string.

Definition new (kw : kwargs) : ValidationError + t :=
  field (kw_whisper kw)
    (WhisperParams.new AUTOMATIC_DETECTION WhisperParams.no_args) (λ w,
  field (kw_vad kw) (VadParams.new VadParams.no_args) (λ v,
  field (kw_diarization kw)
    (DiarizationParams.new DiarizationParams.no_args) (λ d,
  field (kw_bgm_separation kw)
    (BGMSeparationParams.new BGMSeparationParams.no_args) (λ b,
  inr {| whisper := w; vad := v; diarization := d;
         bgm_separation := b |})))).

End Construction.

Definition to_dict (self : t) : list (string * pyval) :=
  let data :=
    [ ("whisper", PyDict (WhisperParams.to_dict (whisper self)));
      ("vad", PyDict (VadParams.to_dict (vad self)));
      ("diarization",
        PyDict (DiarizationParams.to_dict (diarization self)));
      ("bgm_separation",
        PyDict (BGMSeparationParams.to_dict (bgm_separation self))) ] in
  data.

(** [[value for key, value in d.items()]] *)
Definition values (d : list (string * pyval)) : list pyval :=
  (λ '(key, value), value) <$> d.

Definition as_list (self : t) : list pyval :=
  let whisper_list := values (WhisperParams.to_dict (whisper self)) in
  let vad_list := values (VadParams.to_dict (vad self)) in
  let diarization_list := values (VadParams.to_dict (vad self)) in
  let bgm_sep_list :=
    values (BGMSeparationParams.to_dict (bgm_separation self)) in
  whisper_list ++ vad_list ++ diarization_list ++ bgm_sep_list.

End TranscriptionPipelineParams.

(** * Vocabulary of the properties *)

(** ** Validation *)

(** The order of floats, as the comparison operators decide it. *)
Definition fle (x y : float) : Prop := PrimFloat.leb x y = true.
Definition flt (x y : float) : Prop := PrimFloat.ltb x y = true.

(** A property of a keyword argument, when it was passed. *)
Definition supplied {A} (o : option A) (P : A → Prop) : Prop :=
  ∀ v, o = Some v → P v.

(** The bounds the fields of each record declare, stated on the keyword
    arguments of a construction. *)
Definition VadParams_bounds (kw : VadParams.kwargs) : Prop :=
  supplied (VadParams.kw_threshold kw) (λ x, fle 0 x ∧ fle x 1)
  ∧ supplied (VadParams.kw_min_speech_duration_ms kw) (λ n, 0 ≤ n)
  ∧ supplied (VadParams.kw_max_speech_duration_s kw) (λ x, flt 0 x)
  ∧ supplied (VadParams.kw_min_silence_duration_ms kw) (λ n, 0 ≤ n)
  ∧ supplied (VadParams.kw_speech_pad_ms kw) (λ n, 0 ≤ n).

Definition BGMSeparationParams_bounds (kw : BGMSeparationParams.kwargs)
    : Prop :=
  supplied (BGMSeparationParams.kw_segment_size kw) (λ n, 0 < n).

Definition WhisperParams_bounds (kw : WhisperParams.kwargs) : Prop :=
  supplied (WhisperParams.kw_beam_size kw) (λ n, 1 ≤ n)
  ∧ supplied (WhisperParams.kw_no_speech_threshold kw)
      (λ x, fle 0 x ∧ fle x 1)
  ∧ supplied (WhisperParams.kw_best_of kw) (λ n, 1 ≤ n)
  ∧ supplied (WhisperParams.kw_patience kw) (λ x, flt 0 x)
  ∧ supplied (WhisperParams.kw_prompt_reset_on_temperature kw)
      (λ x, fle 0 x ∧ fle x 1)
  ∧ supplied (WhisperParams.kw_temperature kw) (λ x, fle 0 x)
  ∧ supplied (WhisperParams.kw_compression_ratio_threshold kw) (λ x, flt 0 x)
  ∧ supplied (WhisperParams.kw_batch_size kw) (λ n, 0 < n)
  ∧ supplied (WhisperParams.kw_length_penalty kw) (λ x, flt 0 x)
  ∧ supplied (WhisperParams.kw_repetition_penalty kw) (λ x, flt 0 x)
  ∧ supplied (WhisperParams.kw_no_repeat_ngram_size kw) (λ n, 0 ≤ n)
  ∧ supplied (WhisperParams.kw_max_initial_timestamp kw) (λ x, fle 0 x)
  ∧ supplied (WhisperParams.kw_language_detection_segments kw) (λ n, 0 < n).

(** ** Records *)

(** The declared bounds, stated on the fields of a record. *)
Definition VadParams_valid (r : VadParams.t) : Prop :=
  (fle 0 (VadParams.threshold r) ∧ fle (VadParams.threshold r) 1)
  ∧ 0 ≤ VadParams.min_speech_duration_ms r
  ∧ flt 0 (VadParams.max_speech_duration_s r)
  ∧ 0 ≤ VadParams.min_silence_duration_ms r
  ∧ 0 ≤ VadParams.speech_pad_ms r.

Definition BGMSeparationParams_valid (r : BGMSeparationParams.t) : Prop :=
  0 < BGMSeparationParams.segment_size r.

Definition WhisperParams_valid (r : WhisperParams.t) : Prop :=
  1 ≤ WhisperParams.beam_size r
  ∧ (fle 0 (WhisperParams.no_speech_threshold r)
     ∧ fle (WhisperParams.no_speech_threshold r) 1)
  ∧ 1 ≤ WhisperParams.best_of r
  ∧ flt 0 (WhisperParams.patience r)
  ∧ (fle 0 (WhisperParams.prompt_reset_on_temperature r)
     ∧ fle (WhisperParams.prompt_reset_on_temperature r) 1)
  ∧ fle 0 (WhisperParams.temperature r)
  ∧ flt 0 (WhisperParams.compression_ratio_threshold r)
  ∧ 0 < WhisperParams.batch_size r
  ∧ flt 0 (WhisperParams.length_penalty r)
  ∧ flt 0 (WhisperParams.repetition_penalty r)
  ∧ 0 ≤ WhisperParams.no_repeat_ngram_size r
  ∧ fle 0 (WhisperParams.max_initial_timestamp r)
  ∧ 0 < WhisperParams.language_detection_segments r.

(** The keyword arguments that pass every field of a record, as a call
    that unpacks the record's [to_dict()] does. *)
Definition VadParams_as_kwargs (self : VadParams.t) : VadParams.kwargs := {|
  VadParams.kw_vad_filter := Some (VadParams.vad_filter self);
  VadParams.kw_threshold := Some (VadParams.threshold self);
  VadParams.kw_min_speech_duration_ms :=
    Some (VadParams.min_speech_duration_ms self);
  VadParams.kw_max_speech_duration_s :=
    Some (VadParams.max_speech_duration_s self);
  VadParams.kw_min_silence_duration_ms :=
    Some (VadParams.min_silence_duration_ms self);
  VadParams.kw_speech_pad_ms := Some (VadParams.speech_pad_ms self)
|}.

Definition DiarizationParams_as_kwargs (self : DiarizationParams.t)
    : DiarizationParams.kwargs := {|
  DiarizationParams.kw_is_diarize := Some (DiarizationParams.is_diarize self);
  DiarizationParams.kw_hf_token := Some (DiarizationParams.hf_token self)
|}.

Definition BGMSeparationParams_as_kwargs (self : BGMSeparationParams.t)
    : BGMSeparationParams.kwargs := {|
  BGMSeparationParams.kw_is_separate_bgm :=
    Some (BGMSeparationParams.is_separate_bgm self);
  BGMSeparationParams.kw_model_size :=
    Some (BGMSeparationParams.model_size self);
  BGMSeparationParams.kw_segment_size :=
    Some (BGMSeparationParams.segment_size self);
  BGMSeparationParams.kw_save_file :=
    Some (BGMSeparationParams.save_file self);
  BGMSeparationParams.kw_enable_offload :=
    Some (BGMSeparationParams.enable_offload self)
|}.

Definition WhisperParams_as_kwargs (self : WhisperParams.t)
    : WhisperParams.kwargs := {|
  WhisperParams.kw_model_size :=
    Some (WhisperParams.model_size self);
  WhisperParams.kw_lang :=
    Some (WhisperParams.lang self);
  WhisperParams.kw_is_translate :=
    Some (WhisperParams.is_translate self);
  WhisperParams.kw_beam_size :=
    Some (WhisperParams.beam_size self);
  WhisperParams.kw_log_prob_threshold :=
    Some (WhisperParams.log_prob_threshold self);
  WhisperParams.kw_no_speech_threshold :=
    Some (WhisperParams.no_speech_threshold self);
  WhisperParams.kw_compute_type :=
    Some (WhisperParams.compute_type self);
  WhisperParams.kw_best_of :=
    Some (WhisperParams.best_of self);
  WhisperParams.kw_patience :=
    Some (WhisperParams.patience self);
  WhisperParams.kw_condition_on_previous_text :=
    Some (WhisperParams.condition_on_previous_text self);
  WhisperParams.kw_prompt_reset_on_temperature :=
    Some (WhisperParams.prompt_reset_on_temperature self);
  WhisperParams.kw_initial_prompt :=
    Some (WhisperParams.initial_prompt self);
  WhisperParams.kw_temperature :=
    Some (WhisperParams.temperature self);
  WhisperParams.kw_compression_ratio_threshold :=
    Some (WhisperParams.compression_ratio_threshold self);
  WhisperParams.kw_batch_size :=
    Some (WhisperParams.batch_size self);
  WhisperParams.kw_length_penalty :=
    Some (WhisperParams.length_penalty self);
  WhisperParams.kw_repetition_penalty :=
    Some (WhisperParams.repetition_penalty self);
  WhisperParams.kw_no_repeat_ngram_size :=
    Some (WhisperParams.no_repeat_ngram_size self);
  WhisperParams.kw_prefix :=
    Some (WhisperParams.prefix self);
  WhisperParams.kw_suppress_blank :=
    Some (WhisperParams.suppress_blank self);
  WhisperParams.kw_suppress_tokens :=
    Some (WhisperParams.suppress_tokens self);
  WhisperParams.kw_max_initial_timestamp :=
    Some (WhisperParams.max_initial_timestamp self);
  WhisperParams.kw_word_timestamps :=
    Some (WhisperParams.word_timestamps self);
  WhisperParams.kw_prepend_punctuations :=
    Some (WhisperParams.prepend_punctuations self);
  WhisperParams.kw_append_punctuations :=
    Some (WhisperParams.append_punctuations self);
  WhisperParams.kw_max_new_tokens :=
    Some (WhisperParams.max_new_tokens self);
  WhisperParams.kw_chunk_length :=
    Some (WhisperParams.chunk_length self);
  WhisperParams.kw_hallucination_silence_threshold :=
    Some (WhisperParams.hallucination_silence_threshold self);
  WhisperParams.kw_hotwords :=
    Some (WhisperParams.hotwords self);
  WhisperParams.kw_language_detection_threshold :=
    Some (WhisperParams.language_detection_threshold self);
  WhisperParams.kw_language_detection_segments :=
    Some (WhisperParams.language_detection_segments self)
|}.

(** ** Forms *)

(** A computation that raises [e] in every state of the dictionary, and
    leaves the dictionary as it found it. *)
Definition raises {A} (m : Render A) (e : exn) : Prop :=
  ∀ s, run m s = (inl e, s).

(** The field whose name the [WhisperParams] renderer reads first on the
    class. *)
Definition WhisperParams_first_attribute (only_advanced : option bool)
    : string :=
  if WhisperParams.not_ only_advanced then "model_size" else "beam_size".

(** * Properties *)

(** ** Construction and validation *)

Lemma elem_of_test_order {A} (cs : list (constraint A)) c :
  c ∈ test_order cs ↔ c ∈ cs.
Proof.
  unfold test_order. rewrite !elem_of_app, !list_elem_of_filter.
  split; [tauto|]. intros H. destruct c; simpl; tauto.
Qed.

Section Validate.

Context {A : Type} (satisfies : A → constraint A → bool).

Lemma validate_nil name cs o :
  validate satisfies name cs o = []
  ↔ supplied o (λ v, Forall (λ c, satisfies v c = true) cs).
Proof.
  unfold validate, supplied. destruct o as [v|]; [|naive_solver].
  split.
  - intros H v' [= <-].
    destruct (filter _ (test_order cs)) as [|c l] eqn:E; [|discriminate H].
    apply Forall_forall. intros c Hc.
    destruct (satisfies v c) eqn:Hs; [done|].
    assert (c ∈ filter (λ c, satisfies v c = false) (test_order cs)) as Hin
      by (apply list_elem_of_filter; split; [done|];
          by apply elem_of_test_order).
    rewrite E in Hin. by apply not_elem_of_nil in Hin.
  - intros H. specialize (H v eq_refl).
    destruct (filter _ (test_order cs)) as [|c l] eqn:E; [done|].
    assert (c ∈ filter (λ c, satisfies v c = false) (test_order cs)) as Hin
      by (rewrite E; left).
    apply list_elem_of_filter in Hin as [Hf Hin].
    apply (proj1 (elem_of_test_order _ _)) in Hin.
    rewrite Forall_forall in H. rewrite (H c Hin) in Hf. discriminate Hf.
Qed.

End Validate.

Lemma validate_int_ge name b o :
  validate int_satisfies name [ge b] o = [] ↔ supplied o (λ v, b ≤ v).
Proof.
  rewrite validate_nil. unfold supplied. apply forall_proper; intros v.
  rewrite Forall_singleton. simpl. by rewrite Z.leb_le.
Qed.

Lemma validate_int_gt name b o :
  validate int_satisfies name [gt b] o = [] ↔ supplied o (λ v, b < v).
Proof.
  rewrite validate_nil. unfold supplied. apply forall_proper; intros v.
  rewrite Forall_singleton. simpl. by rewrite Z.ltb_lt.
Qed.

Lemma validate_float_ge name b o :
  validate float_satisfies name [ge b] o = [] ↔ supplied o (λ v, fle b v).
Proof.
  rewrite validate_nil. unfold supplied. apply forall_proper; intros v.
  by rewrite Forall_singleton.
Qed.

Lemma validate_float_gt name b o :
  validate float_satisfies name [gt b] o = [] ↔ supplied o (λ v, flt b v).
Proof.
  rewrite validate_nil. unfold supplied. apply forall_proper; intros v.
  by rewrite Forall_singleton.
Qed.

Lemma validate_float_ge_le name lo hi o :
  validate float_satisfies name [ge lo; le hi] o = []
  ↔ supplied o (λ v, fle lo v ∧ fle v hi).
Proof.
  rewrite validate_nil. unfold supplied. apply forall_proper; intros v.
  by rewrite Forall_cons, Forall_singleton.
Qed.

Lemma finish_inr {A} errors (record : A) :
  (∃ r, finish errors record = inr r) ↔ errors = [].
Proof.
  destruct errors; simpl; split; try done.
  - by exists record.
  - by intros [r ?].
Qed.

Lemma finish_inl {A} errors (record : A) :
  (∃ e, e ≠ [] ∧ finish errors record = inl e) ↔ errors ≠ [].
Proof.
  destruct errors as [|e0 l]; simpl; split; try done.
  - by intros (e & ? & ?).
  - intros _. by exists (e0 :: l).
Qed.

Lemma VadParams_errors_nil kw :
  VadParams.errors kw = [] ↔ VadParams_bounds kw.
Proof.
  unfold VadParams.errors, VadParams_bounds.
  rewrite !app_nil, !validate_int_ge, validate_float_gt, validate_float_ge_le.
  reflexivity.
Qed.

Lemma BGMSeparationParams_errors_nil kw :
  BGMSeparationParams.errors kw = [] ↔ BGMSeparationParams_bounds kw.
Proof. apply validate_int_gt. Qed.

Lemma WhisperParams_errors_nil kw :
  WhisperParams.errors kw = [] ↔ WhisperParams_bounds kw.
Proof.
  unfold WhisperParams.errors, WhisperParams_bounds.
  rewrite !app_nil, !validate_int_ge, !validate_int_gt, !validate_float_gt,
    !validate_float_ge, !validate_float_ge_le.
  reflexivity.
Qed.

(** A construction either returns a record or raises, according to its
    list of errors. *)
Lemma construction_outcome {A} (errors : ValidationError) (record : A)
    (bounds : Prop) :
  (errors = [] ↔ bounds) →
  (bounds ↔ ∃ r, finish errors record = inr r)
  ∧ (¬ bounds ↔ ∃ e, e ≠ [] ∧ finish errors record = inl e).
Proof.
  intros H. rewrite finish_inr, finish_inl, H. done.
Qed.

(** C4. Constructing a parameter record succeeds exactly when every
    supplied field value satisfies the bound its field declares, and a value
    out of range makes the construction raise a validation error (a
    non-empty list of error lines) instead of producing a record.  The
    bounds: for [VadParams], [threshold] in [0,1], [max_speech_duration_s]
    positive, the three durations in milliseconds nonnegative; for
    [WhisperParams], [no_speech_threshold] and [prompt_reset_on_temperature]
    in [0,1], [beam_size] and [best_of] at least 1, and the bounds of the
    ten other constrained fields listed in [WhisperParams_bounds]; for
    [BGMSeparationParams], [segment_size] positive; [DiarizationParams]
    declares none and its construction always succeeds. *)
Theorem construction_validates_bounds :
  (∀ kw,
     (VadParams_bounds kw ↔ ∃ r, VadParams.new kw = inr r)
     ∧ (¬ VadParams_bounds kw
        ↔ ∃ e, e ≠ [] ∧ VadParams.new kw = inl e))
  ∧ (∀ AUTOMATIC_DETECTION kw,
     (WhisperParams_bounds kw
      ↔ ∃ r, WhisperParams.new AUTOMATIC_DETECTION kw = inr r)
     ∧ (¬ WhisperParams_bounds kw
        ↔ ∃ e, e ≠ [] ∧ WhisperParams.new AUTOMATIC_DETECTION kw = inl e))
  ∧ (∀ kw,
     (BGMSeparationParams_bounds kw
      ↔ ∃ r, BGMSeparationParams.new kw = inr r)
     ∧ (¬ BGMSeparationParams_bounds kw
        ↔ ∃ e, e ≠ [] ∧ BGMSeparationParams.new kw = inl e))
  ∧ (∀ kw, ∃ r, DiarizationParams.new kw = inr r).
Proof.
  repeat split_and.
  - intros kw. apply construction_outcome, VadParams_errors_nil.
  - intros AD kw. apply construction_outcome, WhisperParams_errors_nil.
  - intros kw. apply construction_outcome, BGMSeparationParams_errors_nil.
  - intros kw. eexists. reflexivity.
Qed.

(** A construction the validation accepts, one it rejects on a [VadParams]
    threshold above 1, and one it rejects on a [WhisperParams] bound
    ([patience=0.0]). *)
Lemma construction_validates_bounds_witness :
  let accepted := {|
    VadParams.kw_vad_filter := Some true;
    VadParams.kw_threshold := Some 0.9%float;
    VadParams.kw_min_speech_duration_ms := Some 0;
    VadParams.kw_max_speech_duration_s := Some 30%float;
    VadParams.kw_min_silence_duration_ms := None;
    VadParams.kw_speech_pad_ms := Some 30 |} in
  let rejected := {|
    VadParams.kw_vad_filter := Some true;
    VadParams.kw_threshold := Some 1.5%float;
    VadParams.kw_min_speech_duration_ms := None;
    VadParams.kw_max_speech_duration_s := None;
    VadParams.kw_min_silence_duration_ms := None;
    VadParams.kw_speech_pad_ms := None |} in
  (∃ r, VadParams.new accepted = inr r)
  ∧ (∃ e, e ≠ [] ∧ VadParams.new rejected = inl e)
  ∧ (∃ e, e ≠ []
       ∧ WhisperParams.new "Automatic Detection"
           (WhisperParams.set_patience 0%float WhisperParams.no_args)
         = inl e).
Proof.
  intros accepted rejected.
  destruct construction_validates_bounds as (HV & HW & _).
  split_and!.
  - apply (HV accepted).
    unfold VadParams_bounds, supplied; simpl.
    split_and!; intros ? [= <-]; try split; vm_compute; done.
  - apply (HV rejected).
    intros (H & _). destruct (H _ eq_refl) as [_ H1].
    vm_compute in H1. discriminate H1.
  - apply (HW "Automatic Detection").
    intros (_ & _ & _ & H & _). specialize (H _ eq_refl).
    vm_compute in H. discriminate H.
Defined.

(** C7. Every parameter record type can be constructed with no arguments,
    and the record obtained holds the default declared for each field. *)
Theorem no_argument_construction_gives_defaults :
  VadParams.new VadParams.no_args = inr {|
    VadParams.vad_filter := false;
    VadParams.threshold := 0.5;
    VadParams.min_speech_duration_ms := 250;
    VadParams.max_speech_duration_s := infinity;
    VadParams.min_silence_duration_ms := 2000;
    VadParams.speech_pad_ms := 400 |}
  ∧ DiarizationParams.new DiarizationParams.no_args = inr {|
    DiarizationParams.is_diarize := false;
    DiarizationParams.hf_token := EmptyString |}
  ∧ BGMSeparationParams.new BGMSeparationParams.no_args = inr {|
    BGMSeparationParams.is_separate_bgm := false;
    BGMSeparationParams.model_size := "UVR-MDX-NET-Inst_HQ_4";
    BGMSeparationParams.segment_size := 256;
    BGMSeparationParams.save_file := false;
    BGMSeparationParams.enable_offload := true |}
  ∧ ∀ AUTOMATIC_DETECTION, ∃ r,
      WhisperParams.new AUTOMATIC_DETECTION WhisperParams.no_args = inr r
      ∧ r = WhisperParams.cls
      ∧ WhisperParams.model_size r = "large-v2"
      ∧ WhisperParams.lang r = None
      ∧ WhisperParams.beam_size r = 5
      ∧ WhisperParams.temperature r = 0.0%float
      ∧ WhisperParams.compute_type r = "float16".
Proof.
  split_and!; try reflexivity.
  intros AD. exists WhisperParams.cls. split_and!; reflexivity.
Qed.

(** C5, as the specification states it, fails: a [model_size] that none of
    the lists of choices contains is accepted and stored. *)
Lemma enum_membership_not_checked :
  ("gigantic" ∉ WhisperParams.model_size_choices)
  ∧ ∃ r,
      WhisperParams.new "Automatic Detection"
        (WhisperParams.set_model_size "gigantic" WhisperParams.no_args)
      = inr r
      ∧ WhisperParams.model_size r = "gigantic".
Proof.
  split.
  - unfold WhisperParams.model_size_choices.
    rewrite !not_elem_of_cons. split_and!; try discriminate.
    apply not_elem_of_nil.
  - eexists. split; reflexivity.
Qed.

(** C5, amended. No field carries an enum-membership check: [model_size] and
    [compute_type] of [WhisperParams] and [model_size] of
    [BGMSeparationParams] are plain strings.  Whatever string is passed for
    one of them, the construction succeeds exactly when the range bounds of
    the other fields hold, and the record then holds that string. *)
Theorem enum_fields_accept_any_string :
  (∀ AUTOMATIC_DETECTION kw s,
     WhisperParams_bounds kw
     ↔ ∃ r,
         WhisperParams.new AUTOMATIC_DETECTION
           (WhisperParams.set_model_size s kw) = inr r
         ∧ WhisperParams.model_size r = s)
  ∧ (∀ AUTOMATIC_DETECTION kw s,
     WhisperParams_bounds kw
     ↔ ∃ r,
         WhisperParams.new AUTOMATIC_DETECTION
           (WhisperParams.set_compute_type s kw) = inr r
         ∧ WhisperParams.compute_type r = s)
  ∧ (∀ kw s,
     BGMSeparationParams_bounds kw
     ↔ ∃ r,
         BGMSeparationParams.new (BGMSeparationParams.set_model_size s kw)
         = inr r
         ∧ BGMSeparationParams.model_size r = s).
Proof.
  split_and!.
  - intros AD kw s. rewrite <- WhisperParams_errors_nil.
    unfold WhisperParams.new.
    change (WhisperParams.errors (WhisperParams.set_model_size s kw))
      with (WhisperParams.errors kw).
    split.
    + intros ->. eexists. split; reflexivity.
    + intros (r & H & _). unfold finish in H.
      by destruct (_ kw).
  - intros AD kw s. rewrite <- WhisperParams_errors_nil.
    unfold WhisperParams.new.
    change (WhisperParams.errors (WhisperParams.set_compute_type s kw))
      with (WhisperParams.errors kw).
    split.
    + intros ->. eexists. split; reflexivity.
    + intros (r & H & _). unfold finish in H.
      by destruct (_ kw).
  - intros kw s. rewrite <- BGMSeparationParams_errors_nil.
    unfold BGMSeparationParams.new.
    change (BGMSeparationParams.errors
              (BGMSeparationParams.set_model_size s kw))
      with (BGMSeparationParams.errors kw).
    split.
    + intros ->. eexists. split; reflexivity.
    + intros (r & H & _). unfold finish in H.
      by destruct (_ kw).
Qed.

(** A [compute_type] that is none of the offered choices, together with an
    in-range [beam_size], is accepted and stored. *)
Lemma enum_fields_accept_any_string_witness :
  ∃ r,
    WhisperParams.new "Automatic Detection"
      (WhisperParams.set_compute_type "float64"
         (WhisperParams.set_beam_size 3 WhisperParams.no_args)) = inr r
    ∧ WhisperParams.compute_type r = "float64".
Proof.
  destruct enum_fields_accept_any_string as (_ & H & _).
  apply (H "Automatic Detection"
           (WhisperParams.set_beam_size 3 WhisperParams.no_args) "float64").
  unfold WhisperParams_bounds, supplied; simpl.
  split_and!; intros ? [= <-]; vm_compute; done.
Defined.

Lemma validate_lang_spec AUTOMATIC_DETECTION v :
  WhisperParams.validate_lang AUTOMATIC_DETECTION v
  = if decide (v = Some AUTOMATIC_DETECTION) then None else v.
Proof.
  unfold WhisperParams.validate_lang.
  destruct v as [s|]; simpl; [|reflexivity].
  destruct (String.eqb_spec AUTOMATIC_DETECTION s) as [->|Hne].
  - by rewrite decide_True.
  - rewrite decide_False; [done|]. intros [= ->]. done.
Qed.

(** C8. The [lang] of a constructed [WhisperParams] is never the
    AUTOMATIC_DETECTION sentinel: a construction that passes the sentinel as
    [lang] yields a record whose [lang] is [None], and one that passes any
    other value yields a record that holds this value. *)
Theorem lang_is_never_the_sentinel AUTOMATIC_DETECTION kw :
  (∀ r, WhisperParams.new AUTOMATIC_DETECTION kw = inr r
        → WhisperParams.lang r ≠ Some AUTOMATIC_DETECTION)
  ∧ (WhisperParams_bounds kw →
     ∃ r, WhisperParams.new AUTOMATIC_DETECTION
            (WhisperParams.set_lang (Some AUTOMATIC_DETECTION) kw) = inr r
          ∧ WhisperParams.lang r = None)
  ∧ (∀ v, v ≠ Some AUTOMATIC_DETECTION → WhisperParams_bounds kw →
     ∃ r, WhisperParams.new AUTOMATIC_DETECTION
            (WhisperParams.set_lang v kw) = inr r
          ∧ WhisperParams.lang r = v).
Proof.
  split_and!.
  - intros r. unfold WhisperParams.new.
    destruct (WhisperParams.errors kw); [|discriminate].
    intros [= <-]. simpl.
    destruct (WhisperParams.kw_lang kw) as [v|]; simpl; [|done].
    rewrite validate_lang_spec. case_decide; [done|]. done.
  - intros Hb. apply WhisperParams_errors_nil in Hb.
    unfold WhisperParams.new.
    change (WhisperParams.errors (WhisperParams.set_lang _ kw))
      with (WhisperParams.errors kw).
    rewrite Hb. eexists. split; [reflexivity|]. simpl.
    rewrite validate_lang_spec. by rewrite decide_True.
  - intros v Hv Hb. apply WhisperParams_errors_nil in Hb.
    unfold WhisperParams.new.
    change (WhisperParams.errors (WhisperParams.set_lang _ kw))
      with (WhisperParams.errors kw).
    rewrite Hb. eexists. split; [reflexivity|]. simpl.
    rewrite validate_lang_spec. by rewrite decide_False.
Qed.

(** With the sentinel "Automatic Detection": passing it gives [None],
    passing "ko" keeps "ko". *)
Lemma lang_is_never_the_sentinel_witness :
  (∃ r, WhisperParams.new "Automatic Detection"
          (WhisperParams.set_lang (Some "Automatic Detection")
             WhisperParams.no_args) = inr r
        ∧ WhisperParams.lang r = None)
  ∧ (∃ r, WhisperParams.new "Automatic Detection"
            (WhisperParams.set_lang (Some "ko") WhisperParams.no_args)
          = inr r
          ∧ WhisperParams.lang r = Some "ko").
Proof.
  assert (WhisperParams_bounds WhisperParams.no_args) as Hb.
  { unfold WhisperParams_bounds, supplied; simpl.
    split_and!; intros ? [= <-]. }
  destruct (lang_is_never_the_sentinel "Automatic Detection"
              WhisperParams.no_args) as (_ & H1 & H2).
  split.
  - apply H1, Hb.
  - apply (H2 (Some "ko")); [discriminate | apply Hb].
Defined.

(** ** The parameter bundle *)

(** C6. The bundle has the four fields [whisper], [vad], [diarization] and
    [bgm_separation]; a field that is not passed holds the result of
    constructing its record type with no arguments, a field that is passed
    holds the record passed; and [to_dict] returns a dictionary with exactly
    the keys "whisper", "vad", "diarization" and "bgm_separation", each
    mapped to the [to_dict] of the sub-record under that name. *)
Theorem bundle_aggregates_four_records :
  (∀ AUTOMATIC_DETECTION, ∃ w v d b,
     WhisperParams.new AUTOMATIC_DETECTION WhisperParams.no_args = inr w
     ∧ VadParams.new VadParams.no_args = inr v
     ∧ DiarizationParams.new DiarizationParams.no_args = inr d
     ∧ BGMSeparationParams.new BGMSeparationParams.no_args = inr b
     ∧ ∀ kw,
         TranscriptionPipelineParams.new AUTOMATIC_DETECTION kw = inr {|
           TranscriptionPipelineParams.whisper :=
             default w (TranscriptionPipelineParams.kw_whisper kw);
           TranscriptionPipelineParams.vad :=
             default v (TranscriptionPipelineParams.kw_vad kw);
           TranscriptionPipelineParams.diarization :=
             default d (TranscriptionPipelineParams.kw_diarization kw);
           TranscriptionPipelineParams.bgm_separation :=
             default b (TranscriptionPipelineParams.kw_bgm_separation kw) |})
  ∧ ∀ p : TranscriptionPipelineParams.t,
      let data : gmap string pyval :=
        list_to_map (TranscriptionPipelineParams.to_dict p) in
      (TranscriptionPipelineParams.to_dict p).*1
        = [ "whisper"; "vad"; "diarization"; "bgm_separation" ]
      ∧ dom data = {[ "whisper"; "vad"; "diarization"; "bgm_separation" ]}
      ∧ data !! "whisper"
        = Some (PyDict (WhisperParams.to_dict
                          (TranscriptionPipelineParams.whisper p)))
      ∧ data !! "vad"
        = Some (PyDict (VadParams.to_dict
                          (TranscriptionPipelineParams.vad p)))
      ∧ data !! "diarization"
        = Some (PyDict (DiarizationParams.to_dict
                          (TranscriptionPipelineParams.diarization p)))
      ∧ data !! "bgm_separation"
        = Some (PyDict (BGMSeparationParams.to_dict
                          (TranscriptionPipelineParams.bgm_separation p))).
Proof.
  split.
  - intros AD. eexists _, _, _, _. split_and!; try reflexivity.
    intros [[w|] [v|] [d|] [b|]]; reflexivity.
  - intros p data. subst data. split; [reflexivity|].
    unfold TranscriptionPipelineParams.to_dict. simpl list_to_map.
    split.
    + rewrite !dom_insert_L, dom_empty_L. set_solver.
    + split_and!; by simplify_map_eq.
Qed.

(** C3. [as_list] is the concatenation of the field values of [whisper], of
    [vad], of [vad] a second time and of [bgm_separation], each block in the
    declaration order of its fields: the values of a dump are the values of
    the 31 fields of a [WhisperParams], of the 6 of a [VadParams], of the 5
    of a [BGMSeparationParams], each under the name of its field; the
    [diarization] sub-record contributes nothing: the result is the same
    whatever it holds. *)
Theorem as_list_blocks :
  (∀ p,
     TranscriptionPipelineParams.as_list p
     = (WhisperParams.to_dict (TranscriptionPipelineParams.whisper p)).*2
       ++ (VadParams.to_dict (TranscriptionPipelineParams.vad p)).*2
       ++ (VadParams.to_dict (TranscriptionPipelineParams.vad p)).*2
       ++ (BGMSeparationParams.to_dict
             (TranscriptionPipelineParams.bgm_separation p)).*2)
  ∧ (∀ w, (WhisperParams.to_dict w).*1 = WhisperParams.field_names)
  ∧ (∀ v, (VadParams.to_dict v).*1 = VadParams.field_names)
  ∧ (∀ b, (BGMSeparationParams.to_dict b).*1
          = BGMSeparationParams.field_names)
  ∧ (∀ w, (WhisperParams.to_dict w).*2
          = [
              PyStr (WhisperParams.model_size w);
              py_option PyStr (WhisperParams.lang w);
              PyBool (WhisperParams.is_translate w);
              PyInt (WhisperParams.beam_size w);
              PyFloat (WhisperParams.log_prob_threshold w);
              PyFloat (WhisperParams.no_speech_threshold w);
              PyStr (WhisperParams.compute_type w);
              PyInt (WhisperParams.best_of w);
              PyFloat (WhisperParams.patience w);
              PyBool (WhisperParams.condition_on_previous_text w);
              PyFloat (WhisperParams.prompt_reset_on_temperature w);
              py_option PyStr (WhisperParams.initial_prompt w);
              PyFloat (WhisperParams.temperature w);
              PyFloat (WhisperParams.compression_ratio_threshold w);
              PyInt (WhisperParams.batch_size w);
              PyFloat (WhisperParams.length_penalty w);
              PyFloat (WhisperParams.repetition_penalty w);
              PyInt (WhisperParams.no_repeat_ngram_size w);
              py_option PyStr (WhisperParams.prefix w);
              PyBool (WhisperParams.suppress_blank w);
              py_option PyStr (WhisperParams.suppress_tokens w);
              PyFloat (WhisperParams.max_initial_timestamp w);
              PyBool (WhisperParams.word_timestamps w);
              py_option PyStr (WhisperParams.prepend_punctuations w);
              py_option PyStr (WhisperParams.append_punctuations w);
              py_option PyInt (WhisperParams.max_new_tokens w);
              py_option PyInt (WhisperParams.chunk_length w);
              py_option PyFloat (WhisperParams.hallucination_silence_threshold w);
              py_option PyStr (WhisperParams.hotwords w);
              py_option PyFloat (WhisperParams.language_detection_threshold w);
              PyInt (WhisperParams.language_detection_segments w) ])
  ∧ (∀ v, (VadParams.to_dict v).*2
          = [ PyBool (VadParams.vad_filter v);
              PyFloat (VadParams.threshold v);
              PyInt (VadParams.min_speech_duration_ms v);
              PyFloat (VadParams.max_speech_duration_s v);
              PyInt (VadParams.min_silence_duration_ms v);
              PyInt (VadParams.speech_pad_ms v) ])
  ∧ (∀ b, (BGMSeparationParams.to_dict b).*2
          = [ PyBool (BGMSeparationParams.is_separate_bgm b);
              PyStr (BGMSeparationParams.model_size b);
              PyInt (BGMSeparationParams.segment_size b);
              PyBool (BGMSeparationParams.save_file b);
              PyBool (BGMSeparationParams.enable_offload b) ])
  ∧ (∀ p, length (TranscriptionPipelineParams.as_list p) = 48%nat)
  ∧ (∀ w v d d' b,
       TranscriptionPipelineParams.as_list {|
         TranscriptionPipelineParams.whisper := w;
         TranscriptionPipelineParams.vad := v;
         TranscriptionPipelineParams.diarization := d;
         TranscriptionPipelineParams.bgm_separation := b |}
       = TranscriptionPipelineParams.as_list {|
         TranscriptionPipelineParams.whisper := w;
         TranscriptionPipelineParams.vad := v;
         TranscriptionPipelineParams.diarization := d';
         TranscriptionPipelineParams.bgm_separation := b |}).
Proof. split_and!; reflexivity. Qed.

(** ** Records that were constructed *)

Lemma finish_inr_inv {A} errors (record r : A) :
  finish errors record = inr r → errors = [] ∧ r = record.
Proof. destruct errors; simpl; [|discriminate]. by intros [= ->]. Qed.

(** What holds of a keyword argument when it is passed, and of the declared
    default, holds of the value the record takes. *)
Lemma supplied_default {A} (P : A → Prop) (o : option A) (d : A) :
  supplied o P → P d → P (default d o).
Proof. intros Ho Hd. destruct o as [v|]; simpl; [by apply Ho | done]. Qed.

Lemma supplied_Some {A} (P : A → Prop) (v : A) : supplied (Some v) P ↔ P v.
Proof.
  unfold supplied. split; [intros H; by apply H | by intros H ? [= <-]].
Qed.

(** The record a [VadParams] construction returns is within the declared
    bounds, whether a field was passed or took its default. *)
Theorem VadParams_constructed_within_bounds kw r :
  VadParams.new kw = inr r → VadParams_valid r.
Proof.
  intros H. apply finish_inr_inv in H as [He ->].
  apply VadParams_errors_nil in He.
  destruct He as (H1 & H2 & H3 & H4 & H5).
  unfold VadParams_valid; simpl. split_and!.
  - apply (supplied_default (λ x, fle 0 x) _ _); [|by vm_compute].
    intros x Hx. by apply (H1 x Hx).
  - apply (supplied_default (λ x, fle x 1) _ _); [|by vm_compute].
    intros x Hx. by apply (H1 x Hx).
  - by apply (supplied_default (λ n, 0 ≤ n) _ _).
  - by apply (supplied_default (λ x, flt 0 x) _ _).
  - by apply (supplied_default (λ n, 0 ≤ n) _ _).
  - by apply (supplied_default (λ n, 0 ≤ n) _ _).
Qed.

(** A construction that passes a threshold and a padding and leaves the
    other fields to their defaults. *)
Lemma VadParams_constructed_within_bounds_witness :
  ∃ r,
    VadParams.new {|
      VadParams.kw_vad_filter := None;
      VadParams.kw_threshold := Some 0.25%float;
      VadParams.kw_min_speech_duration_ms := None;
      VadParams.kw_max_speech_duration_s := None;
      VadParams.kw_min_silence_duration_ms := None;
      VadParams.kw_speech_pad_ms := Some 0 |} = inr r
    ∧ VadParams_valid r.
Proof.
  match goal with
  | |- ∃ r, VadParams.new ?kw = inr r ∧ _ =>
      pose proof (VadParams_constructed_within_bounds kw) as H
  end.
  eexists. split; [reflexivity|]. apply H. reflexivity.
Defined.

(** The record a [WhisperParams] construction returns is within the
    declared bounds, whether a field was passed or took its default. *)
Theorem WhisperParams_constructed_within_bounds AUTOMATIC_DETECTION kw r :
  WhisperParams.new AUTOMATIC_DETECTION kw = inr r → WhisperParams_valid r.
Proof.
  intros H. apply finish_inr_inv in H as [He ->].
  apply WhisperParams_errors_nil in He.
  destruct He as
    (H1 & H2 & H3 & H4 & H5 & H6 & H7 & H8 & H9 & H10 & H11 & H12 & H13).
  unfold WhisperParams_valid; simpl. split_and!.
  - by apply (supplied_default (λ n, 1 ≤ n) _ _).
  - apply (supplied_default (λ x, fle 0 x) _ _); [|by vm_compute].
    intros x Hx. by apply (H2 x Hx).
  - apply (supplied_default (λ x, fle x 1) _ _); [|by vm_compute].
    intros x Hx. by apply (H2 x Hx).
  - by apply (supplied_default (λ n, 1 ≤ n) _ _).
  - by apply (supplied_default (λ x, flt 0 x) _ _).
  - apply (supplied_default (λ x, fle 0 x) _ _); [|by vm_compute].
    intros x Hx. by apply (H5 x Hx).
  - apply (supplied_default (λ x, fle x 1) _ _); [|by vm_compute].
    intros x Hx. by apply (H5 x Hx).
  - by apply (supplied_default (λ x, fle 0 x) _ _).
  - by apply (supplied_default (λ x, flt 0 x) _ _).
  - by apply (supplied_default (λ n, 0 < n) _ _).
  - by apply (supplied_default (λ x, flt 0 x) _ _).
  - by apply (supplied_default (λ x, flt 0 x) _ _).
  - by apply (supplied_default (λ n, 0 ≤ n) _ _).
  - by apply (supplied_default (λ x, fle 0 x) _ _).
  - by apply (supplied_default (λ n, 0 < n) _ _).
Qed.

(** A construction that passes [beam_size=3] and [patience=2.0]. *)
Lemma WhisperParams_constructed_within_bounds_witness :
  ∃ r,
    WhisperParams.new "Automatic Detection"
      (WhisperParams.set_patience 2%float
         (WhisperParams.set_beam_size 3 WhisperParams.no_args)) = inr r
    ∧ WhisperParams_valid r.
Proof.
  match goal with
  | |- ∃ r, WhisperParams.new ?sentinel ?kw = inr r ∧ _ =>
      pose proof (WhisperParams_constructed_within_bounds sentinel kw) as H
  end.
  eexists. split; [reflexivity|]. apply H. reflexivity.
Defined.

(** The record a [BGMSeparationParams] construction returns has a positive
    [segment_size]. *)
Theorem BGMSeparationParams_constructed_within_bounds kw r :
  BGMSeparationParams.new kw = inr r → BGMSeparationParams_valid r.
Proof.
  intros H. apply finish_inr_inv in H as [He ->].
  apply BGMSeparationParams_errors_nil in He.
  unfold BGMSeparationParams_valid; simpl.
  by apply (supplied_default (λ n, 0 < n) _ _).
Qed.

Lemma BGMSeparationParams_constructed_within_bounds_witness :
  ∃ r,
    BGMSeparationParams.new
      (BGMSeparationParams.set_model_size "UVR-MDX-NET-Inst_3"
         BGMSeparationParams.no_args) = inr r
    ∧ BGMSeparationParams_valid r.
Proof.
  match goal with
  | |- ∃ r, BGMSeparationParams.new ?kw = inr r ∧ _ =>
      pose proof (BGMSeparationParams_constructed_within_bounds kw) as H
  end.
  eexists. split; [reflexivity|]. apply H. reflexivity.
Defined.

Lemma VadParams_as_kwargs_errors r :
  VadParams.errors (VadParams_as_kwargs r) = [] ↔ VadParams_valid r.
Proof.
  rewrite VadParams_errors_nil.
  unfold VadParams_bounds, VadParams_as_kwargs; simpl.
  rewrite !supplied_Some. reflexivity.
Qed.

Lemma WhisperParams_as_kwargs_errors r :
  WhisperParams.errors (WhisperParams_as_kwargs r) = []
  ↔ WhisperParams_valid r.
Proof.
  rewrite WhisperParams_errors_nil.
  unfold WhisperParams_bounds, WhisperParams_as_kwargs; simpl.
  rewrite !supplied_Some. reflexivity.
Qed.

Lemma BGMSeparationParams_as_kwargs_errors r :
  BGMSeparationParams.errors (BGMSeparationParams_as_kwargs r) = []
  ↔ BGMSeparationParams_valid r.
Proof.
  rewrite BGMSeparationParams_errors_nil.
  unfold BGMSeparationParams_bounds, BGMSeparationParams_as_kwargs; simpl.
  rewrite supplied_Some. reflexivity.
Qed.

(** Constructing a record anew from all the fields of a record [r] returns
    [r] itself exactly when [r] is within the declared bounds and, for
    [WhisperParams], its [lang] is not the AUTOMATIC_DETECTION sentinel; for
    [DiarizationParams], always. *)
Theorem reconstruction_returns_the_record :
  (∀ r, VadParams.new (VadParams_as_kwargs r) = inr r ↔ VadParams_valid r)
  ∧ (∀ r, DiarizationParams.new (DiarizationParams_as_kwargs r) = inr r)
  ∧ (∀ r, BGMSeparationParams.new (BGMSeparationParams_as_kwargs r) = inr r
          ↔ BGMSeparationParams_valid r)
  ∧ (∀ AUTOMATIC_DETECTION r,
       WhisperParams.new AUTOMATIC_DETECTION (WhisperParams_as_kwargs r)
       = inr r
       ↔ WhisperParams_valid r
         ∧ WhisperParams.lang r ≠ Some AUTOMATIC_DETECTION).
Proof.
  split_and!.
  - intros r. rewrite <- VadParams_as_kwargs_errors. unfold VadParams.new.
    split.
    + intros H. by apply finish_inr_inv in H as [He _].
    + intros ->. by destruct r.
  - intros r. by destruct r.
  - intros r. rewrite <- BGMSeparationParams_as_kwargs_errors.
    unfold BGMSeparationParams.new. split.
    + intros H. by apply finish_inr_inv in H as [He _].
    + intros ->. by destruct r.
  - intros AD r. rewrite <- WhisperParams_as_kwargs_errors.
    unfold WhisperParams.new. split.
    + intros H. apply finish_inr_inv in H as [He Hr]. split; [done|].
      apply (f_equal WhisperParams.lang) in Hr. simpl in Hr.
      rewrite validate_lang_spec in Hr. intros Hl.
      rewrite decide_True in Hr by done. congruence.
    + intros [-> Hl]. simpl. f_equal. destruct r; simpl in *.
      rewrite validate_lang_spec, decide_False by done. reflexivity.
Qed.

(** The declared defaults are within bounds and reconstruct. *)
Lemma reconstruction_returns_the_record_witness :
  VadParams.new (VadParams_as_kwargs VadParams.cls) = inr VadParams.cls
  ∧ WhisperParams.new "Automatic Detection"
      (WhisperParams_as_kwargs WhisperParams.cls) = inr WhisperParams.cls.
Proof.
  destruct reconstruction_returns_the_record as (HV & _ & _ & HW).
  split.
  - apply HV. unfold VadParams_valid. simpl. split_and!; by vm_compute.
  - apply HW. split; [|discriminate].
    unfold WhisperParams_valid. simpl. split_and!; by vm_compute.
Defined.

Lemma py_option_inj {A} (inj : A → pyval) (x y : option A) :
  (∀ a b, inj a = inj b → a = b) → (∀ a, inj a ≠ PyNone) →
  py_option inj x = py_option inj y → x = y.
Proof.
  intros Hinj Hne. destruct x as [a|], y as [b|]; simpl; intros H.
  - f_equal. by apply Hinj.
  - by apply Hne in H.
  - symmetry in H. by apply Hne in H.
  - done.
Qed.

Lemma py_option_PyStr_inj x y :
  py_option PyStr x = py_option PyStr y → x = y.
Proof. apply py_option_inj; [by intros a b [=] | done]. Qed.

Lemma py_option_PyInt_inj x y :
  py_option PyInt x = py_option PyInt y → x = y.
Proof. apply py_option_inj; [by intros a b [=] | done]. Qed.

Lemma py_option_PyFloat_inj x y :
  py_option PyFloat x = py_option PyFloat y → x = y.
Proof. apply py_option_inj; [by intros a b [=] | done]. Qed.

(** A dump determines the record it was taken from: two records with the
    same [to_dict()] are the same record, for each of the four record types
    and for the bundle. *)
Theorem to_dict_determines_the_record :
  (∀ r r', VadParams.to_dict r = VadParams.to_dict r' → r = r')
  ∧ (∀ r r',
       DiarizationParams.to_dict r = DiarizationParams.to_dict r' → r = r')
  ∧ (∀ r r',
       BGMSeparationParams.to_dict r = BGMSeparationParams.to_dict r' →
       r = r')
  ∧ (∀ r r', WhisperParams.to_dict r = WhisperParams.to_dict r' → r = r')
  ∧ (∀ p p',
       TranscriptionPipelineParams.to_dict p
       = TranscriptionPipelineParams.to_dict p' → p = p').
Proof.
  assert (∀ r r', VadParams.to_dict r = VadParams.to_dict r' → r = r') as HV.
  { intros [] []; simpl. intros [=]. by subst. }
  assert (∀ r r',
            DiarizationParams.to_dict r = DiarizationParams.to_dict r' →
            r = r') as HD.
  { intros [] []; simpl. intros [=]. by subst. }
  assert (∀ r r',
            BGMSeparationParams.to_dict r = BGMSeparationParams.to_dict r' →
            r = r') as HB.
  { intros [] []; simpl. intros [=]. by subst. }
  assert (∀ r r', WhisperParams.to_dict r = WhisperParams.to_dict r' →
                  r = r') as HW.
  { intros [] []; simpl. intros [=].
    repeat match goal with
      | H : py_option PyStr _ = py_option PyStr _ |- _ =>
          apply py_option_PyStr_inj in H
      | H : py_option PyInt _ = py_option PyInt _ |- _ =>
          apply py_option_PyInt_inj in H
      | H : py_option PyFloat _ = py_option PyFloat _ |- _ =>
          apply py_option_PyFloat_inj in H
      end.
    by subst. }
  split_and!; try done.
  intros p p' H. unfold TranscriptionPipelineParams.to_dict in H.
  assert (TranscriptionPipelineParams.whisper p
          = TranscriptionPipelineParams.whisper p') by (apply HW; congruence).
  assert (TranscriptionPipelineParams.vad p
          = TranscriptionPipelineParams.vad p') by (apply HV; congruence).
  assert (TranscriptionPipelineParams.diarization p
          = TranscriptionPipelineParams.diarization p')
    by (apply HD; congruence).
  assert (TranscriptionPipelineParams.bgm_separation p
          = TranscriptionPipelineParams.bgm_separation p')
    by (apply HB; congruence).
  destruct p, p'; simpl in *. congruence.
Qed.

(** ** Forms *)

(** C1. No renderer returns a list of widgets.  Each one reads, as the
    fallback of its first lookup, the name of a field on the class, and
    this raises [AttributeError]: for [vad_filter], [is_diarize] and
    [is_separate_bgm], and in the [WhisperParams] renderer for [model_size]
    when [only_advanced] is false or [None] and for [beam_size] otherwise.
    This holds for every dictionary and all other arguments. *)
Theorem renderers_raise_attribute_error :
  raises VadParams.to_gradio_inputs (AttributeError "vad_filter")
  ∧ (∀ available_devices device,
       raises (DiarizationParams.to_gradio_inputs available_devices device)
         (AttributeError "is_diarize"))
  ∧ (∀ available_devices device available_models,
       raises
         (BGMSeparationParams.to_gradio_input available_devices device
            available_models)
         (AttributeError "is_separate_bgm"))
  ∧ (∀ only_advanced whisper_type available_compute_types compute_type,
       raises
         (WhisperParams.to_gradio_inputs only_advanced whisper_type
            available_compute_types compute_type)
         (AttributeError (WhisperParams_first_attribute only_advanced)))
  ∧ WhisperParams_first_attribute (Some true) = "beam_size"
  ∧ WhisperParams_first_attribute (Some false) = "model_size"
  ∧ WhisperParams_first_attribute None = "model_size".
Proof.
  split_and!; try (intros; intros s; reflexivity); try reflexivity.
  intros only_advanced whisper_type types compute_type s.
  destruct only_advanced as [[|]|]; reflexivity.
Qed.

(** C2. An entry of the dictionary under the name of a field does not make
    the form show it.  The lookup alone would return the entry, whatever
    its fallback; but the fallback, the name of the field read on the class,
    is evaluated before the lookup is made, and raises.  So a form rendered
    from the dump of a record, which has an entry for every field, raises
    as well. *)
Theorem entry_present_yet_rendering_raises :
  (∀ (d : gmap string pyval) key v fallback,
     d !! key = Some v →
     run (defaults_get key fallback) (Some d) = (inr v, Some d))
  ∧ (∀ (d : gmap string pyval) name key v,
       d !! key = Some v →
       run (fallback ← getattr_cls name; defaults_get key fallback) (Some d)
       = (inl (AttributeError name), Some d))
  ∧ (∀ r,
       let d : gmap string pyval := list_to_map (VadParams.to_dict r) in
       d !! "vad_filter" = Some (PyBool (VadParams.vad_filter r))
       ∧ run VadParams.to_gradio_inputs (Some d)
         = (inl (AttributeError "vad_filter"), Some d))
  ∧ (∀ r only_advanced whisper_type available_compute_types compute_type,
       let d : gmap string pyval := list_to_map (WhisperParams.to_dict r) in
       d !! "model_size" = Some (PyStr (WhisperParams.model_size r))
       ∧ d !! "beam_size" = Some (PyInt (WhisperParams.beam_size r))
       ∧ run (WhisperParams.to_gradio_inputs only_advanced whisper_type
                available_compute_types compute_type) (Some d)
         = (inl (AttributeError
                   (WhisperParams_first_attribute only_advanced)), Some d)).
Proof.
  split_and!.
  - intros d key v fallback H. unfold run, defaults_get; simpl.
    by rewrite H.
  - reflexivity.
  - intros r d. subst d. split; [|reflexivity].
    unfold VadParams.to_dict.
    by rewrite list_to_map_cons, lookup_insert_eq.
  - intros r only_advanced whisper_type types compute_type d. subst d.
    split_and!.
    + unfold WhisperParams.to_dict.
      by rewrite list_to_map_cons, lookup_insert_eq.
    + unfold WhisperParams.to_dict.
      rewrite !list_to_map_cons.
      by rewrite !lookup_insert_ne, lookup_insert_eq by done.
    + destruct only_advanced as [[|]|]; reflexivity.
Qed.

(** A dictionary with an entry for [vad_filter]: the lookup returns it, the
    lookup with the class attribute as fallback raises. *)
Lemma entry_present_yet_rendering_raises_witness :
  run (defaults_get "vad_filter" PyNone)
    (Some {[ "vad_filter" := PyBool true ]})
  = (inr (PyBool true), Some {[ "vad_filter" := PyBool true ]})
  ∧ run (fallback ← getattr_cls "vad_filter";
         defaults_get "vad_filter" fallback)
      (Some {[ "vad_filter" := PyBool true ]})
    = (inl (AttributeError "vad_filter"),
       Some {[ "vad_filter" := PyBool true ]}).
Proof.
  destruct entry_present_yet_rendering_raises as (H1 & H2 & _).
  split.
  - apply H1. apply lookup_singleton_eq.
  - apply (H2 _ _ _ (PyBool true)). apply lookup_singleton_eq.
Defined.

(** C9. The "Length Penalty" and the "Batch Size" widget are never built:
    whatever the arguments, the renderer raises on a field read before
    [length_penalty] and [batch_size].  The flag each would get is [False]:
    the block of each is entered only when [whisper_type] is the member of
    [WhisperImpl], and a member is not equal to the string the [visible]
    flag compares it with. *)
Theorem length_penalty_and_batch_size_never_built :
  (∀ only_advanced whisper_type available_compute_types compute_type s,
     ∃ name,
       run (WhisperParams.to_gradio_inputs only_advanced whisper_type
              available_compute_types compute_type) s
       = (inl (AttributeError name), s)
       ∧ name ≠ "length_penalty" ∧ name ≠ "batch_size")
  ∧ (∀ whisper_type,
       enum_eq FASTER_WHISPER whisper_type = true →
       str_eq "faster_whisper" whisper_type = false)
  ∧ (∀ whisper_type,
       enum_eq INSANELY_FAST_WHISPER whisper_type = true →
       str_eq "insanely_fast_whisper" whisper_type = false).
Proof.
  split_and!.
  - intros only_advanced whisper_type types compute_type s.
    exists (WhisperParams_first_attribute only_advanced).
    destruct only_advanced as [[|]|]; split_and!; done.
  - by intros [].
  - by intros [].
Qed.

(** With [whisper_type] the member [FASTER_WHISPER]: the comparison with
    the string is false, and the rendering raises on [beam_size]. *)
Lemma length_penalty_and_batch_size_never_built_witness :
  str_eq "faster_whisper" (PyEnum FASTER_WHISPER) = false
  ∧ ∃ name,
      run (WhisperParams.to_gradio_inputs (Some true)
             (PyEnum FASTER_WHISPER) None None) None
      = (inl (AttributeError name), None)
      ∧ name ≠ "length_penalty" ∧ name ≠ "batch_size".
Proof.
  destruct length_penalty_and_batch_size_never_built as (H1 & H2 & _).
  split.
  - by apply H2.
  - apply H1.
Defined.

(** C10. Two renderings with the same arguments, the second from the state
    the first leaves: neither returns a list of widgets, both raise the same
    [AttributeError], and the dictionary passed as [defaults] is left as it
    was. *)
Theorem two_renderings_raise_alike :
  ∀ s available_devices device available_models only_advanced whisper_type
    available_compute_types compute_type,
    Forall
      (λ form : Render (list widget),
         ∃ e s1 s2,
           run form s = (inl e, s1) ∧ run form s1 = (inl e, s2)
           ∧ s1 = s ∧ s2 = s)
      [ VadParams.to_gradio_inputs;
        DiarizationParams.to_gradio_inputs available_devices device;
        BGMSeparationParams.to_gradio_input available_devices device
          available_models;
        WhisperParams.to_gradio_inputs only_advanced whisper_type
          available_compute_types compute_type ].
Proof.
  intros s devices device models only_advanced whisper_type types
    compute_type.
  repeat apply Forall_cons_2; try apply Forall_nil_2.
  - by eexists _, s, s.
  - by eexists _, s, s.
  - by eexists _, s, s.
  - exists (AttributeError (WhisperParams_first_attribute only_advanced)),
      s, s.
    destruct only_advanced as [[|]|]; done.
Qed.
